(** * Trade Scope: the trade calculation core and the popup script
    ([src/lib/tradeCalc.ts])

    A shallow embedding of [calculateTrade] and of the helpers it calls, and
    of the pure part of the popup script, followed by their properties.

    Number model.  A TypeScript [number] is embedded twice.

    - In exact arithmetic: a [number] is a rational ([Q]), compared with
      [==] ([Qeq]), and [+], [-], [*], [/] are the field operations.
      IEEE-754 rounding, overflow, [NaN] and the infinities are outside this
      model, so [Number.isFinite] holds of every value in it.  It carries
      the properties that follow the control flow of the source or compare
      returned fields with each other and with constants.

    - In binary64 (module [Binary64]): a [number] is the kernel's primitive
      binary64 float, with the rounding, the overflow, the underflow, the
      [NaN] and the infinities of the program.  It carries the values a call
      returns and the error path of a unit cost that is not finite.

    A [throw new Error(msg)] is embedded as the [Throw msg] result. *)

From Stdlib Require Import QArith Qround Qabs Lqa Lia ZArith String List Bool.
From Stdlib Require PrimFloat SpecFloat FloatOps FloatAxioms.
Import ListNotations.

Local Open Scope Q_scope.
Local Open Scope string_scope.

(** ** JavaScript numbers and the built-ins the source uses *)

Definition number : Type := Q.

Module JS.

(** [x <= y] and [x < y] as the booleans the source branches on. *)
Definition leb (x y : number) : bool := Qle_bool x y.
Definition ltb (x y : number) : bool := negb (Qle_bool y x).

(** [Math.max(x, y)], [Math.floor(x)], [Math.ceil(x)]. *)
Definition Math_max (x y : number) : number := if ltb x y then y else x.
Definition Math_floor (x : number) : number := inject_Z (Qfloor x).
Definition Math_ceil (x : number) : number := inject_Z (Qceiling x).

(** [Number.isFinite(x)]: every embedded number is finite. *)
Definition Number_isFinite (x : number) : bool := true.

(** [Number(x.toFixed(8))].  [toFixed] writes the sign, then, when the
    magnitude is below 10^21, the integer [n] closest to [|x| * 10^8]
    (the larger one on a tie) with the decimal point eight places from
    the right; from 10^21 on it prints the number itself.  [Number]
    reads that decimal text back. *)
Definition toFixed8 (x : number) : number :=
  let a := Qabs x in
  if leb 1e21 a then x
  else
    let n := Qfloor (a * 1e8 + 0.5) in
    let m := inject_Z n / 1e8 in
    if ltb x 0 then - m else m.

(** [o ?? d] *)
Definition nullish {A : Type} (o : option A) (d : A) : A :=
  match o with Some v => v | None => d end.

(** Truthiness of an optional boolean property: [undefined] is falsy. *)
Definition truthy (o : option bool) : bool :=
  match o with Some b => b | None => false end.

End JS.

Declare Scope js_scope.
Delimit Scope js_scope with js.
Infix "<=?" := JS.leb (at level 70, no associativity) : js_scope.
Infix "<?" := JS.ltb (at level 70, no associativity) : js_scope.
Notation "x >? y" := (JS.ltb y x)
  (at level 70, no associativity, only parsing) : js_scope.
Infix "??" := JS.nullish (at level 45, left associativity) : js_scope.
Local Open Scope js_scope.

(** ** Exceptions *)

Inductive Result (A : Type) : Type :=
| Ok (value : A)
| Throw (message : string).
Arguments Ok {A} value.
Arguments Throw {A} message.

(** ** Data model (lines 1-91) *)

Inductive TradeDirection : Type := Long | Short.
Inductive StopType : Type := FixedPercent | AtrMultiple | FixedPoints.
Inductive SetupType : Type := Breakout | FalseBreakout.

(** ['risk_cash' | 'risk_percent' | 'notional'] *)
Module RiskMode.
Inductive t : Type := risk_cash | risk_percent | notional.
End RiskMode.

(** [number | 'UNKNOWN'] *)
Inductive RangeOverStop : Type :=
| RangeNumber (ratio : number)
| RANGE_UNKNOWN.

(** The value of [stopAtrPercent]: a number, or the literal
    [Number.POSITIVE_INFINITY] of the source's fallback branch. *)
Inductive StopAtrPercent : Type :=
| Percent (value : number)
| POSITIVE_INFINITY.

Definition direction_eqb (a b : TradeDirection) : bool :=
  match a, b with
  | Long, Long | Short, Short => true
  | _, _ => false
  end.

Record InstrumentProfile : Type := {
  ip_symbol : string;
  ip_contractMultiplier : number;
  ip_lotStep : number;
  ip_minLot : number;
  ip_feePerUnit : option number;
  ip_priceTick : option number
}.

Record RiskProfile : Type := {
  rp_mode : RiskMode.t;
  rp_accountSize : option number;
  rp_riskCash : option number;
  rp_riskPercent : option number;
  rp_notional : option number
}.

Record StopConfig : Type := {
  sc_type : StopType;
  sc_percent : option number;
  sc_atrMultiple : option number;
  sc_points : option number
}.

Record TradeInput : Type := {
  ti_direction : TradeDirection;
  ti_setup : SetupType;
  ti_level : number;
  ti_atr : number;
  ti_rrMultiple : number;
  ti_stop : StopConfig;
  ti_bufferRatio : number;
  ti_rangePassed : option number;
  ti_currentPrice : option number;
  ti_enableAtrFilter : option bool;
  ti_instrument : InstrumentProfile;
  ti_riskProfile : RiskProfile
}.

Record PositionSummary : Type := {
  ps_riskCash : number;
  ps_estFees : number;
  ps_pnlAtTp : number;
  ps_pnlAtSl : number
}.

Record TradeResult : Type := {
  tr_direction : TradeDirection;
  tr_setup : SetupType;
  tr_level : number;
  tr_stop : number;
  tr_buffer : number;
  tr_tvx : number;
  tr_slPrice : number;
  tr_tpPrice : number;
  tr_rrMultiple : number;
  tr_atrOverStop : number;
  tr_rangeOverStop : RangeOverStop;
  tr_hasFourStops : bool;
  tr_stopWithinAtrFilter : bool;
  tr_warnings : list string;
  tr_quantity : number;
  tr_notional : number;
  tr_belowMinLot : bool;
  tr_positionSummary : PositionSummary;
  tr_currentPriceToTvx : option number;
  tr_stopAtrPercent : StopAtrPercent
}.

Record Meta : Type := {
  meta_usedRiskCash : number;
  meta_usedNotional : option number
}.

Record TradeCalcResponse : Type := {
  result : TradeResult;
  meta : Meta
}.

(** ** Helpers for each formula (lines 94-159) *)

Definition roundDownToStep (qty step : number) : number :=
  if step <=? 0 then JS.Math_max qty 0
  else
    let scaled := qty / step in
    let floored := JS.Math_floor (scaled + 1e-9) in
    let rounded := floored * step in
    let normalized :=
      if JS.Number_isFinite rounded then JS.toFixed8 rounded else 0 in
    if normalized <? 0 then 0 else normalized.

Definition roundUpToStep (qty step : number) : number :=
  if step <=? 0 then JS.Math_max qty 0
  else
    let scaled := qty / step in
    let ceiled := JS.Math_ceil (scaled - 1e-9) in
    let rounded := ceiled * step in
    let normalized :=
      if JS.Number_isFinite rounded then JS.toFixed8 rounded else 0 in
    if normalized <? 0 then 0 else normalized.

(** The [default:] arm of the source's [switch] throws 'Unsupported stop
    type'; [StopType] has three members and the [match] is exhaustive, so
    the arm has no counterpart here. *)
Definition computeStop (input : TradeInput) : number :=
  let stop := ti_stop input in
  let level := ti_level input in
  let atr := ti_atr input in
  match sc_type stop with
  | FixedPercent => ((sc_percent stop ?? 0.3) / 100) * level
  | AtrMultiple => (sc_atrMultiple stop ?? 0.5) * atr
  | FixedPoints => sc_points stop ?? 0
  end.

Definition computeBuffer (stop bufferRatio : number) : number :=
  stop * bufferRatio.

Definition computeTvx (input : TradeInput) (buffer : number) : number :=
  if direction_eqb (ti_direction input) Long
  then ti_level input + buffer
  else ti_level input - buffer.

Definition computeSlPrice (input : TradeInput) (stop : number) : number :=
  if direction_eqb (ti_direction input) Long
  then ti_level input - stop
  else ti_level input + stop.

Definition computeTpPrice (input : TradeInput) (tvx stop : number) : number :=
  if direction_eqb (ti_direction input) Long
  then tvx + ti_rrMultiple input * stop
  else tvx - ti_rrMultiple input * stop.

(** ** Risk sizing (lines 162-220) *)

Definition costPerUnit (stopValuePerUnit feePerUnit : number) : number :=
  stopValuePerUnit + feePerUnit.

Record Sizing : Type := {
  sz_quantity : number;
  sz_usedRiskCash : number;
  sz_notional : number;
  sz_estFees : number;
  sz_belowMinLot : bool
}.

(** The locals of [calcQuantity] that the properties below speak about,
    each as a function of the arguments of [calcQuantity]. *)

Definition unitCost (input : TradeInput) (stop : number) : number :=
  let instrument := ti_instrument input in
  let feePerUnit := ip_feePerUnit instrument ?? 0 in
  let contractMultiplier := ip_contractMultiplier instrument in
  let stopValuePerUnit := stop * contractMultiplier in
  costPerUnit stopValuePerUnit feePerUnit.

Definition qtyRaw (input : TradeInput) (stop : number) : number :=
  let riskProfile := ti_riskProfile input in
  let level := ti_level input in
  let contractMultiplier := ip_contractMultiplier (ti_instrument input) in
  match rp_mode riskProfile with
  | RiskMode.risk_cash =>
      let riskCash := rp_riskCash riskProfile ?? 0 in
      JS.Math_max (JS.Math_floor (riskCash / unitCost input stop)) 0
  | RiskMode.risk_percent =>
      let accountSize := rp_accountSize riskProfile ?? 0 in
      let riskCash := (accountSize * (rp_riskPercent riskProfile ?? 0)) / 100 in
      JS.Math_max (JS.Math_floor (riskCash / unitCost input stop)) 0
  | RiskMode.notional =>
      let notional := rp_notional riskProfile ?? 0 in
      let denom := level * contractMultiplier in
      if denom >? 0 then JS.Math_max (JS.Math_floor (notional / denom)) 0
      else 0
  end.

Definition lotStepOf (input : TradeInput) : number :=
  let instrument := ti_instrument input in
  if ip_lotStep instrument >? 0 then ip_lotStep instrument else 1.

Definition roundedQty (input : TradeInput) (stop : number) : number :=
  roundDownToStep (qtyRaw input stop) (lotStepOf input).

Definition minLotAligned (input : TradeInput) : number :=
  let instrument := ti_instrument input in
  let step := lotStepOf input in
  let minLot := if ip_minLot instrument >? 0 then ip_minLot instrument else 0 in
  if minLot >? 0 then JS.Math_max (roundUpToStep minLot step) minLot else 0.

Definition calcQuantity (input : TradeInput) (stop : number) : Result Sizing :=
  let instrument := ti_instrument input in
  let level := ti_level input in
  let feePerUnit := ip_feePerUnit instrument ?? 0 in
  let contractMultiplier := ip_contractMultiplier instrument in
  let unitCost := unitCost input stop in
  if negb (JS.Number_isFinite unitCost) || (unitCost <=? 0)
  then Throw "Calculated unit cost must be positive and finite"
  else
    let roundedQty := roundedQty input stop in
    let minLotAligned := minLotAligned input in
    let quantity :=
      if minLotAligned >? 0 then JS.Math_max roundedQty minLotAligned
      else roundedQty in
    let quantity :=
      if JS.Number_isFinite quantity then JS.toFixed8 quantity else 0 in
    let belowMinLot :=
      (minLotAligned >? 0) && (roundedQty <? minLotAligned)
      && (quantity >? 0) in
    let estFees := quantity * feePerUnit in
    let notional := quantity * level * contractMultiplier in
    let usedRiskCash := quantity * unitCost in
    Ok {| sz_quantity := quantity;
          sz_usedRiskCash := usedRiskCash;
          sz_notional := notional;
          sz_estFees := estFees;
          sz_belowMinLot := belowMinLot |}.

(** ** Warnings (lines 222-235) *)

Record WarningInput : Type := {
  wi_atrCheckFailed : bool;
  wi_rangeCheckFailed : option bool;
  wi_stopFilterFailed : bool;
  wi_belowMinLot : bool
}.

Definition push (warnings : list string) (w : string) : list string :=
  warnings ++ [w].

Definition collectWarnings (r : WarningInput) : list string :=
  let warnings := [] in
  let warnings :=
    if wi_atrCheckFailed r then push warnings "ATR/Stop < 4" else warnings in
  let warnings :=
    if JS.truthy (wi_rangeCheckFailed r) then push warnings "Range/Stop < 4"
    else warnings in
  let warnings :=
    if wi_stopFilterFailed r then push warnings "Stop exceeds 20% ATR limit"
    else warnings in
  let warnings :=
    if wi_belowMinLot r then push warnings "Qty is below minimum lot"
    else warnings in
  warnings.

(** ** Main functionality (lines 238-342) *)

Definition calculateTrade (input : TradeInput) : Result TradeCalcResponse :=
  if ti_level input <=? 0 then Throw "Level must be greater than zero"
  else if ti_atr input <=? 0 then Throw "ATR must be greater than zero"
  else if ti_rrMultiple input <=? 0
  then Throw "Risk/reward multiple must be greater than zero"
  else if ti_bufferRatio input <? 0
  then Throw "Buffer ratio must be non-negative"
  else if ip_contractMultiplier (ti_instrument input) <=? 0
  then Throw "Contract multiplier must be greater than zero"
  else
    let stop := computeStop input in
    if stop <=? 0 then Throw "Computed stop must be greater than zero"
    else
      let buffer := computeBuffer stop (ti_bufferRatio input) in
      let tvx := computeTvx input buffer in
      let slPrice := computeSlPrice input stop in
      let tpPrice := computeTpPrice input tvx stop in
      let contractMultiplier := ip_contractMultiplier (ti_instrument input) in
      let atrOverStop := ti_atr input / stop in
      let rangeOverStop :=
        match ti_rangePassed input with
        | Some rangePassed => RangeNumber (rangePassed / stop)
        | None => RANGE_UNKNOWN
        end in
      let hasRange :=
        match rangeOverStop with
        | RangeNumber _ => true
        | RANGE_UNKNOWN => false
        end in
      let atrCheckFailed := atrOverStop <? 4 in
      let rangeCheckFailedFlag :=
        match rangeOverStop with
        | RangeNumber ratio => ratio <? 4
        | RANGE_UNKNOWN => false
        end in
      let hasFourStops :=
        negb atrCheckFailed && (negb hasRange || negb rangeCheckFailedFlag) in
      let stopWithinFilter :=
        negb (JS.truthy (ti_enableAtrFilter input))
        || (stop <=? 0.2 * ti_atr input) in
      match calcQuantity input stop with
      | Throw message => Throw message
      | Ok sizing =>
          let quantity := sz_quantity sizing in
          let usedRiskCash := sz_usedRiskCash sizing in
          let notional := sz_notional sizing in
          let estFees := sz_estFees sizing in
          let belowMinLot := sz_belowMinLot sizing in
          let warningInput :=
            {| wi_atrCheckFailed := atrCheckFailed;
               wi_rangeCheckFailed :=
                 if hasRange then Some rangeCheckFailedFlag else None;
               wi_stopFilterFailed := negb stopWithinFilter;
               wi_belowMinLot := belowMinLot |} in
          let warnings := collectWarnings warningInput in
          let tpDistance :=
            if direction_eqb (ti_direction input) Long
            then tpPrice - tvx else tvx - tpPrice in
          let slDistance :=
            if direction_eqb (ti_direction input) Long
            then tvx - slPrice else slPrice - tvx in
          let pnlAtTp := tpDistance * quantity * contractMultiplier in
          let pnlAtSl := - slDistance * quantity * contractMultiplier in
          Ok {| result :=
                  {| tr_direction := ti_direction input;
                     tr_setup := ti_setup input;
                     tr_level := ti_level input;
                     tr_stop := stop;
                     tr_buffer := buffer;
                     tr_tvx := tvx;
                     tr_slPrice := slPrice;
                     tr_tpPrice := tpPrice;
                     tr_rrMultiple := ti_rrMultiple input;
                     tr_atrOverStop := atrOverStop;
                     tr_rangeOverStop := rangeOverStop;
                     tr_hasFourStops := hasFourStops;
                     tr_stopWithinAtrFilter := stopWithinFilter;
                     tr_warnings := warnings;
                     tr_quantity := quantity;
                     tr_notional := notional;
                     tr_belowMinLot := belowMinLot;
                     tr_positionSummary :=
                       {| ps_riskCash := usedRiskCash;
                          ps_estFees := estFees;
                          ps_pnlAtTp := pnlAtTp;
                          ps_pnlAtSl := pnlAtSl |};
                     tr_currentPriceToTvx :=
                       match ti_currentPrice input with
                       | Some currentPrice => Some (currentPrice - tvx)
                       | None => None
                       end;
                     tr_stopAtrPercent :=
                       if ti_atr input >? 0
                       then Percent ((stop / ti_atr input) * 100)
                       else POSITIVE_INFINITY |};
                meta :=
                  {| meta_usedRiskCash := usedRiskCash;
                     meta_usedNotional :=
                       match rp_mode (ti_riskProfile input) with
                       | RiskMode.notional => Some notional
                       | _ => None
                       end |} |}
      end.

(** ** Reading the contract *)

(** Two inputs with the same five base fields. *)
Definition sameBaseFields (a b : TradeInput) : Prop :=
  ti_level a == ti_level b /\ ti_atr a == ti_atr b /\
  ti_rrMultiple a == ti_rrMultiple b /\
  ti_bufferRatio a == ti_bufferRatio b /\
  ip_contractMultiplier (ti_instrument a)
  == ip_contractMultiplier (ti_instrument b).

(** The messages of the five base-validation guards, in source order. *)
Definition baseValidationMessages : list string :=
  [ "Level must be greater than zero";
    "ATR must be greater than zero";
    "Risk/reward multiple must be greater than zero";
    "Buffer ratio must be non-negative";
    "Contract multiplier must be greater than zero" ].

(** The sizing rule in the words of the specification: the step, the
    minimum-lot threshold and the final quantity it prescribes. *)
Definition specStep (lotStep : number) : number :=
  if lotStep >? 0 then lotStep else 1.

Definition specMinLotThreshold (minLot step : number) : number :=
  if minLot >? 0 then JS.Math_max (roundUpToStep minLot step) minLot else 0.

Definition specQuantity (roundedQty minLotThreshold : number) : number :=
  if minLotThreshold >? 0 then JS.Math_max roundedQty minLotThreshold
  else roundedQty.

(** The warning [w] when the flag [b] is set, nothing otherwise. *)
Definition keep (b : bool) (w : string) : list string :=
  if b then [w] else [].

(** ** Concrete inputs (the fixtures of the repository's test suite) *)

Definition baseInstrument : InstrumentProfile :=
  {| ip_symbol := "TEST"; ip_contractMultiplier := 1; ip_lotStep := 1;
     ip_minLot := 1; ip_feePerUnit := Some 0.2; ip_priceTick := None |}.

Definition baseRisk : RiskProfile :=
  {| rp_mode := RiskMode.risk_cash; rp_accountSize := None;
     rp_riskCash := Some 100; rp_riskPercent := None; rp_notional := None |}.

Definition stopOf (type : StopType) (value : number) : StopConfig :=
  {| sc_type := type;
     sc_percent := match type with FixedPercent => Some value | _ => None end;
     sc_atrMultiple :=
       match type with AtrMultiple => Some value | _ => None end;
     sc_points := match type with FixedPoints => Some value | _ => None end |}.

(** 'computes breakout long with fixed percent stop' *)
Definition scenarioA : TradeInput :=
  {| ti_direction := Long; ti_setup := Breakout; ti_level := 100;
     ti_atr := 2; ti_rrMultiple := 3; ti_stop := stopOf FixedPercent 0.3;
     ti_bufferRatio := 0.2; ti_rangePassed := None;
     ti_currentPrice := Some 99.5; ti_enableAtrFilter := Some true;
     ti_instrument := baseInstrument; ti_riskProfile := baseRisk |}.

(** 'flags validation warnings for short false breakout with fixed points
    stop' *)
Definition scenarioB : TradeInput :=
  {| ti_direction := Short; ti_setup := FalseBreakout; ti_level := 50;
     ti_atr := 1; ti_rrMultiple := 2; ti_stop := stopOf FixedPoints 0.5;
     ti_bufferRatio := 0.2; ti_rangePassed := Some 1;
     ti_currentPrice := Some 50.3; ti_enableAtrFilter := Some true;
     ti_instrument :=
       {| ip_symbol := "FUT"; ip_contractMultiplier := 1; ip_lotStep := 1;
          ip_minLot := 25; ip_feePerUnit := Some 0; ip_priceTick := None |};
     ti_riskProfile :=
       {| rp_mode := RiskMode.risk_cash; rp_accountSize := None;
          rp_riskCash := Some 10; rp_riskPercent := None;
          rp_notional := None |} |}.

(** 'supports notional risk mode and disabled ATR filter' *)
Definition scenarioC : TradeInput :=
  {| ti_direction := Long; ti_setup := Breakout; ti_level := 2500;
     ti_atr := 80; ti_rrMultiple := 2; ti_stop := stopOf AtrMultiple 0.5;
     ti_bufferRatio := 0.2; ti_rangePassed := Some 220;
     ti_currentPrice := None; ti_enableAtrFilter := Some false;
     ti_instrument :=
       {| ip_symbol := "FUT"; ip_contractMultiplier := 100; ip_lotStep := 1;
          ip_minLot := 1; ip_feePerUnit := Some 5; ip_priceTick := None |};
     ti_riskProfile :=
       {| rp_mode := RiskMode.notional; rp_accountSize := None;
          rp_riskCash := None; rp_riskPercent := None;
          rp_notional := Some 500000 |} |}.

(** 'throws for invalid level input' *)
Definition invalidInput : TradeInput :=
  {| ti_direction := Long; ti_setup := Breakout; ti_level := 0;
     ti_atr := 1; ti_rrMultiple := 2; ti_stop := stopOf FixedPoints 1;
     ti_bufferRatio := 0.2; ti_rangePassed := None; ti_currentPrice := None;
     ti_enableAtrFilter := None;
     ti_instrument := baseInstrument; ti_riskProfile := baseRisk |}.

(** Scenario B with the optional [enableAtrFilter] property left out. *)
Definition scenarioB_noFilterField : TradeInput :=
  {| ti_direction := ti_direction scenarioB; ti_setup := ti_setup scenarioB;
     ti_level := ti_level scenarioB; ti_atr := ti_atr scenarioB;
     ti_rrMultiple := ti_rrMultiple scenarioB; ti_stop := ti_stop scenarioB;
     ti_bufferRatio := ti_bufferRatio scenarioB;
     ti_rangePassed := ti_rangePassed scenarioB;
     ti_currentPrice := ti_currentPrice scenarioB;
     ti_enableAtrFilter := None;
     ti_instrument := ti_instrument scenarioB;
     ti_riskProfile := ti_riskProfile scenarioB |}.

(** Scenario A with another lot step, minimum lot and risk budget. *)
Definition sizingInput (lotStep minLot riskCash : number) : TradeInput :=
  {| ti_direction := ti_direction scenarioA; ti_setup := ti_setup scenarioA;
     ti_level := ti_level scenarioA; ti_atr := ti_atr scenarioA;
     ti_rrMultiple := ti_rrMultiple scenarioA; ti_stop := ti_stop scenarioA;
     ti_bufferRatio := ti_bufferRatio scenarioA;
     ti_rangePassed := ti_rangePassed scenarioA;
     ti_currentPrice := ti_currentPrice scenarioA;
     ti_enableAtrFilter := ti_enableAtrFilter scenarioA;
     ti_instrument :=
       {| ip_symbol := "TEST"; ip_contractMultiplier := 1;
          ip_lotStep := lotStep; ip_minLot := minLot;
          ip_feePerUnit := Some 0.2; ip_priceTick := None |};
     ti_riskProfile :=
       {| rp_mode := RiskMode.risk_cash; rp_accountSize := None;
          rp_riskCash := Some riskCash; rp_riskPercent := None;
          rp_notional := None |} |}.

(** A minimum lot just above a lot step of 1, inside the [1e-9] tolerance
    of [roundUpToStep]. *)
Definition minLotAbove1 : TradeInput := sizingInput 1 1.0000000005 0.

(** The response of a call that is known to return; [noResponse] stands in
    for a call that throws. *)
Definition noResponse : TradeCalcResponse :=
  {| result :=
       {| tr_direction := Long; tr_setup := Breakout; tr_level := 0;
          tr_stop := 0; tr_buffer := 0; tr_tvx := 0; tr_slPrice := 0;
          tr_tpPrice := 0; tr_rrMultiple := 0; tr_atrOverStop := 0;
          tr_rangeOverStop := RANGE_UNKNOWN; tr_hasFourStops := false;
          tr_stopWithinAtrFilter := false; tr_warnings := [];
          tr_quantity := 0; tr_notional := 0; tr_belowMinLot := false;
          tr_positionSummary :=
            {| ps_riskCash := 0; ps_estFees := 0; ps_pnlAtTp := 0;
               ps_pnlAtSl := 0 |};
          tr_currentPriceToTvx := None;
          tr_stopAtrPercent := POSITIVE_INFINITY |};
     meta := {| meta_usedRiskCash := 0; meta_usedNotional := None |} |}.

Definition returned (input : TradeInput) : TradeCalcResponse :=
  match calculateTrade input with Ok r => r | Throw _ => noResponse end.

Definition responseA : TradeCalcResponse :=
  Eval vm_compute in returned scenarioA.

Definition responseB : TradeCalcResponse :=
  Eval vm_compute in returned scenarioB.

Definition responseC : TradeCalcResponse :=
  Eval vm_compute in returned scenarioC.

Definition responseAbove1 : TradeCalcResponse :=
  Eval vm_compute in returned minLotAbove1.

(** * The popup script (lines 343-1902 of the source file)

    The pure part of the popup: the form state, its validation, and the
    result rows computed from it.  A [number | null] field is an
    [option number].  The module variable [formErrors], which [computeRow]
    reads, is passed as an argument.  Reading and writing the page, the
    clipboard and the storage are left out. *)

Definition StopType_value (stopType : StopType) : string :=
  match stopType with
  | FixedPercent => "fixed_percent"
  | AtrMultiple => "atr_multiple"
  | FixedPoints => "fixed_points"
  end.

Definition SetupType_value (setup : SetupType) : string :=
  match setup with
  | Breakout => "breakout"
  | FalseBreakout => "false_breakout"
  end.

Definition STOP_LABELS (stopType : StopType) : string :=
  match stopType with
  | FixedPercent => "Fixed %"
  | AtrMultiple => "ATR * k"
  | FixedPoints => "Fixed points"
  end.

Definition SETUP_LABELS (setup : SetupType) : string :=
  match setup with
  | Breakout => "Breakout"
  | FalseBreakout => "False Breakout"
  end.

Record StopSettings : Type := {
  ss_percent : option number;
  ss_atrMultiple : option number;
  ss_points : option number
}.

Record RiskState : Type := {
  rs_mode : RiskMode.t;
  rs_riskCash : option number;
  rs_riskPercent : option number;
  rs_accountSize : option number;
  rs_notional : option number
}.

Record InstrumentState : Type := {
  is_symbol : string;
  is_contractMultiplier : option number;
  is_lotStep : option number;
  is_minLot : option number;
  is_feePerUnit : option number;
  is_priceTick : option number
}.

(** [Record<SetupType, boolean>] *)
Record SetupToggle : Type := {
  su_breakout : bool;
  su_false_breakout : bool
}.

(** [setups[setup]] *)
Definition setupEnabled (setups : SetupToggle) (setup : SetupType) : bool :=
  match setup with
  | Breakout => su_breakout setups
  | FalseBreakout => su_false_breakout setups
  end.

Record FormState : Type := {
  fs_direction : TradeDirection;
  fs_setups : SetupToggle;
  fs_level : option number;
  fs_atr : option number;
  fs_rrMultiple : option number;
  fs_bufferRatio : option number;
  fs_rangePassed : option number;
  fs_currentPrice : option number;
  fs_enableAtrFilter : bool;
  fs_stopSettings : StopSettings;
  fs_risk : RiskState;
  fs_instrument : InstrumentState
}.

Record FormErrors : Type := {
  fe_level : option string;
  fe_atr : option string;
  fe_rrMultiple : option string;
  fe_bufferRatio : option string;
  fe_stopPercent : option string;
  fe_stopAtrMultiple : option string;
  fe_stopPoints : option string;
  fe_setups : option string;
  fe_riskCash : option string;
  fe_riskPercent : option string;
  fe_accountSize : option string;
  fe_notional : option string;
  fe_contractMultiplier : option string;
  fe_lotStep : option string;
  fe_minLot : option string;
  fe_feePerUnit : option string
}.

Record ResultRow : Type := {
  row_id : string;
  row_setup : SetupType;
  row_stopType : StopType;
  row_error : option string;
  row_response : option TradeCalcResponse
}.

Definition DEFAULT_STATE : FormState :=
  {| fs_direction := Long;
     fs_setups := {| su_breakout := true; su_false_breakout := true |};
     fs_level := Some 100; fs_atr := Some 2; fs_rrMultiple := Some 3;
     fs_bufferRatio := Some 0.2; fs_rangePassed := None;
     fs_currentPrice := None; fs_enableAtrFilter := true;
     fs_stopSettings :=
       {| ss_percent := Some 0.3; ss_atrMultiple := Some 0.5;
          ss_points := Some 1 |};
     fs_risk :=
       {| rs_mode := RiskMode.risk_cash; rs_riskCash := Some 100;
          rs_riskPercent := Some 1; rs_accountSize := Some 10000;
          rs_notional := Some 50000 |};
     fs_instrument :=
       {| is_symbol := "TICKER"; is_contractMultiplier := Some 1;
          is_lotStep := Some 1; is_minLot := Some 1;
          is_feePerUnit := Some 0.2; is_priceTick := Some 0.01 |} |}.

Definition stopTypes : list StopType :=
  [FixedPercent; AtrMultiple; FixedPoints].

Definition setupOrder : list SetupType := [Breakout; FalseBreakout].

(** ** Validation (lines 1110-1173) *)

Definition isPositive (value : option number) : bool :=
  match value with
  | Some value => value >? 0
  | None => false
  end.

Definition isNonNegative (value : option number) : bool :=
  match value with
  | Some value => 0 <=? value
  | None => false
  end.

(** [if (cond) errors.key = message], for a key assigned nowhere else. *)
Definition errorIf (cond : bool) (message : string) : option string :=
  if cond then Some message else None.

Definition validateState (state : FormState) : FormErrors :=
  let mode := rs_mode (fs_risk state) in
  {| fe_setups :=
       errorIf (negb (setupEnabled (fs_setups state) Breakout)
                && negb (setupEnabled (fs_setups state) FalseBreakout))
         "Select at least one setup";
     fe_level :=
       errorIf (negb (isPositive (fs_level state)))
         "Level must be greater than zero";
     fe_atr :=
       errorIf (negb (isPositive (fs_atr state)))
         "ATR must be greater than zero";
     fe_rrMultiple :=
       errorIf (negb (isPositive (fs_rrMultiple state)))
         "RR must be greater than zero";
     fe_bufferRatio :=
       errorIf (negb (isNonNegative (fs_bufferRatio state)))
         "Buffer ratio must be >= 0";
     fe_stopPercent :=
       errorIf (negb (isPositive (ss_percent (fs_stopSettings state))))
         "Provide stop % value";
     fe_stopAtrMultiple :=
       errorIf (negb (isPositive (ss_atrMultiple (fs_stopSettings state))))
         "Provide ATR multiple";
     fe_stopPoints :=
       errorIf (negb (isPositive (ss_points (fs_stopSettings state))))
         "Provide stop points";
     fe_contractMultiplier :=
       errorIf (negb (isPositive (is_contractMultiplier (fs_instrument state))))
         "Contract multiplier must be > 0";
     fe_lotStep :=
       errorIf (negb (isPositive (is_lotStep (fs_instrument state))))
         "Lot step must be > 0";
     fe_minLot :=
       errorIf (negb (isNonNegative (is_minLot (fs_instrument state))))
         "Min lot must be >= 0";
     fe_feePerUnit :=
       errorIf (negb (isNonNegative (is_feePerUnit (fs_instrument state))))
         "Fee must be >= 0";
     fe_riskCash :=
       errorIf (match mode with RiskMode.risk_cash => true | _ => false end
                && negb (isPositive (rs_riskCash (fs_risk state))))
         "Risk per trade required";
     fe_riskPercent :=
       errorIf (match mode with RiskMode.risk_percent => true | _ => false end
                && negb (isPositive (rs_riskPercent (fs_risk state))))
         "Risk % required";
     fe_accountSize :=
       errorIf (match mode with RiskMode.risk_percent => true | _ => false end
                && negb (isPositive (rs_accountSize (fs_risk state))))
         "Account size required";
     fe_notional :=
       errorIf (match mode with RiskMode.notional => true | _ => false end
                && negb (isPositive (rs_notional (fs_risk state))))
         "Notional required" |}.

(** ** Result rows (lines 1268-1467) *)

(** [keyof FormErrors], for the keys [firstFatalError] walks through. *)
Inductive FatalKey : Type :=
| K_setups | K_level | K_atr | K_rrMultiple | K_bufferRatio
| K_contractMultiplier | K_lotStep | K_riskCash | K_riskPercent
| K_accountSize | K_notional.

(** [errors[key]] *)
Definition errorAt (errors : FormErrors) (key : FatalKey) : option string :=
  match key with
  | K_setups => fe_setups errors
  | K_level => fe_level errors
  | K_atr => fe_atr errors
  | K_rrMultiple => fe_rrMultiple errors
  | K_bufferRatio => fe_bufferRatio errors
  | K_contractMultiplier => fe_contractMultiplier errors
  | K_lotStep => fe_lotStep errors
  | K_riskCash => fe_riskCash errors
  | K_riskPercent => fe_riskPercent errors
  | K_accountSize => fe_accountSize errors
  | K_notional => fe_notional errors
  end.

(** Truthiness of a [string | undefined]: a non-empty string. *)
Definition truthyText (text : option string) : bool :=
  match text with
  | Some text => negb (String.eqb text EmptyString)
  | None => false
  end.

Definition fatalOrder : list FatalKey :=
  [ K_setups; K_level; K_atr; K_rrMultiple; K_bufferRatio;
    K_contractMultiplier; K_lotStep; K_riskCash; K_riskPercent;
    K_accountSize; K_notional ].

(** The [for (const key of order)] loop of [firstFatalError]. *)
Fixpoint firstTruthyError (errors : FormErrors) (order : list FatalKey)
  : option string :=
  match order with
  | [] => None
  | key :: rest =>
      let error := errorAt errors key in
      if truthyText error then error else firstTruthyError errors rest
  end.

Definition firstFatalError (errors : FormErrors) : option string :=
  firstTruthyError errors fatalOrder.

Definition getStopValue (state : FormState) (stopType : StopType)
  : option number :=
  match stopType with
  | FixedPercent => ss_percent (fs_stopSettings state)
  | AtrMultiple => ss_atrMultiple (fs_stopSettings state)
  | FixedPoints => ss_points (fs_stopSettings state)
  end.

Definition buildStopConfig (stopType : StopType) (stopSettings : StopSettings)
  : StopConfig :=
  match stopType with
  | FixedPercent =>
      {| sc_type := FixedPercent;
         sc_percent := Some (ss_percent stopSettings ?? 0);
         sc_atrMultiple := None; sc_points := None |}
  | AtrMultiple =>
      {| sc_type := AtrMultiple; sc_percent := None;
         sc_atrMultiple := Some (ss_atrMultiple stopSettings ?? 0);
         sc_points := None |}
  | FixedPoints =>
      {| sc_type := FixedPoints; sc_percent := None; sc_atrMultiple := None;
         sc_points := Some (ss_points stopSettings ?? 0) |}
  end.

Definition validateRiskForMode (risk : RiskState) : option string :=
  match rs_mode risk with
  | RiskMode.risk_cash =>
      if negb (isPositive (rs_riskCash risk))
      then Some "Risk per trade required" else None
  | RiskMode.risk_percent =>
      if negb (isPositive (rs_riskPercent risk)) then Some "Risk % required"
      else if negb (isPositive (rs_accountSize risk))
      then Some "Account size required" else None
  | RiskMode.notional =>
      if negb (isPositive (rs_notional risk))
      then Some "Notional required" else None
  end.

(** The template [`${setup}_${stopType}`]. *)
Definition rowId (setup : SetupType) (stopType : StopType) : string :=
  SetupType_value setup ++ "_" ++ StopType_value stopType.

(** [{ id, setup, stopType, error }] *)
Definition errorRow (setup : SetupType) (stopType : StopType) (error : string)
  : ResultRow :=
  {| row_id := rowId setup stopType; row_setup := setup;
     row_stopType := stopType; row_error := Some error;
     row_response := None |}.

(** The [TradeInput] literal of [computeRow] (lines 1366-1392), for the
    three base values that passed [isPositive]. *)
Definition rowInput (state : FormState) (setup : SetupType)
  (stopType : StopType) (level atr rrMultiple : number) : TradeInput :=
  let bufferRatio := fs_bufferRatio state ?? 0 in
  let instrument := fs_instrument state in
  let risk := fs_risk state in
  {| ti_direction := fs_direction state;
     ti_setup := setup;
     ti_level := level;
     ti_atr := atr;
     ti_rrMultiple := rrMultiple;
     ti_stop := buildStopConfig stopType (fs_stopSettings state);
     ti_bufferRatio := bufferRatio;
     ti_rangePassed := fs_rangePassed state;
     ti_currentPrice := fs_currentPrice state;
     ti_enableAtrFilter := Some (fs_enableAtrFilter state);
     ti_instrument :=
       {| ip_symbol := is_symbol instrument;
          ip_contractMultiplier := is_contractMultiplier instrument ?? 1;
          ip_lotStep := is_lotStep instrument ?? 1;
          ip_minLot := is_minLot instrument ?? 0;
          ip_feePerUnit := Some (is_feePerUnit instrument ?? 0);
          ip_priceTick := is_priceTick instrument |};
     ti_riskProfile :=
       {| rp_mode := rs_mode risk;
          rp_riskCash := rs_riskCash risk;
          rp_riskPercent := rs_riskPercent risk;
          rp_accountSize := rs_accountSize risk;
          rp_notional := rs_notional risk |} |}.

(** [computeRow]; [formErrors] is the module variable it reads.  Past the
    [isPositive] tests [level], [atr] and [rrMultiple] are numbers, so the
    last arm of the [match] is never taken. *)
Definition computeRow (formErrors : FormErrors) (state : FormState)
  (setup : SetupType) (stopType : StopType) : ResultRow :=
  let baseError := firstFatalError formErrors in
  if truthyText baseError
  then errorRow setup stopType (baseError ?? EmptyString)
  else
    let level := fs_level state in
    let atr := fs_atr state in
    let rrMultiple := fs_rrMultiple state in
    if negb (isPositive level) || negb (isPositive atr)
       || negb (isPositive rrMultiple)
    then errorRow setup stopType "Provide base trade inputs"
    else
      let stopValue := getStopValue state stopType in
      if negb (isPositive stopValue)
      then errorRow setup stopType "Stop parameters missing"
      else
        let instrument := fs_instrument state in
        let risk := fs_risk state in
        if negb (isPositive (is_contractMultiplier instrument))
           || negb (isPositive (is_lotStep instrument))
        then errorRow setup stopType "Instrument configuration incomplete"
        else
          let riskCheck := validateRiskForMode risk in
          if truthyText riskCheck
          then errorRow setup stopType (riskCheck ?? EmptyString)
          else
            match level, atr, rrMultiple with
            | Some level, Some atr, Some rrMultiple =>
                let input :=
                  rowInput state setup stopType level atr rrMultiple in
                match calculateTrade input with
                | Ok response =>
                    {| row_id := rowId setup stopType; row_setup := setup;
                       row_stopType := stopType; row_error := None;
                       row_response := Some response |}
                | Throw message => errorRow setup stopType message
                end
            | _, _, _ => errorRow setup stopType "Provide base trade inputs"
            end.

Definition buildResultRows (formErrors : FormErrors) (state : FormState)
  : list ResultRow :=
  let activeSetups :=
    filter (fun setup => setupEnabled (fs_setups state) setup) setupOrder in
  if Nat.eqb (List.length activeSetups) 0 then []
  else
    flat_map
      (fun setup =>
         map (fun stopType => computeRow formErrors state setup stopType)
           stopTypes)
      activeSetups.

(** [recompute]: the new value of [formErrors] and the rows handed to the
    three render functions. *)
Definition recompute (formState : FormState) : FormErrors * list ResultRow :=
  let formErrors := validateState formState in
  (formErrors, buildResultRows formErrors formState).

(** ** Reading the validation *)

(** The messages [validateState] attaches to the keys that
    [firstFatalError] walks through. *)
Definition fatalMessages : list string :=
  [ "Select at least one setup"; "Level must be greater than zero";
    "ATR must be greater than zero"; "RR must be greater than zero";
    "Buffer ratio must be >= 0"; "Contract multiplier must be > 0";
    "Lot step must be > 0"; "Risk per trade required"; "Risk % required";
    "Account size required"; "Notional required" ].

(** The number of enabled setups. *)
Definition enabledSetups (state : FormState) : nat :=
  List.length
    (filter (fun setup => setupEnabled (fs_setups state) setup) setupOrder).

(** ** CSV fields (lines 1846-1851) *)

Definition quoteChar : Ascii.ascii := Ascii.ascii_of_nat 34.
Definition commaChar : Ascii.ascii := Ascii.ascii_of_nat 44.

(** [value.includes(c)] for a one-character [c]. *)
Fixpoint includesChar (c : Ascii.ascii) (value : string) : bool :=
  match value with
  | EmptyString => false
  | String head rest => Ascii.eqb head c || includesChar c rest
  end.

(** [value.replace] of every quote character, globally, by two of them. *)
Fixpoint doubleQuotes (value : string) : string :=
  match value with
  | EmptyString => EmptyString
  | String head rest =>
      if Ascii.eqb head quoteChar
      then String quoteChar (String quoteChar (doubleQuotes rest))
      else String head (doubleQuotes rest)
  end.

Definition csvEscape (value : string) : string :=
  if includesChar commaChar value || includesChar quoteChar value
  then String quoteChar (doubleQuotes value ++ String quoteChar EmptyString)
  else value.

(** A reader for one escaped field, used to show that [csvEscape] loses
    nothing: inside the outer quotes a doubled quote stands for one quote
    and a single quote ends the field. *)
Fixpoint readQuoted (body : string) : string :=
  match body with
  | EmptyString => EmptyString
  | String head rest =>
      if Ascii.eqb head quoteChar
      then
        match rest with
        | String _ rest' => String quoteChar (readQuoted rest')
        | EmptyString => EmptyString
        end
      else String head (readQuoted rest)
  end.

Definition csvRead (field : string) : string :=
  match field with
  | String head body => if Ascii.eqb head quoteChar then readQuoted body else field
  | EmptyString => field
  end.

(** ** Restoring the stored form (lines 598-735)

    What the storage hands back: any property may be missing or [null],
    and the nested objects may be missing as a whole. *)

Record StoredSetups : Type := {
  sto_breakout : option bool;
  sto_false_breakout : option bool
}.

Record StoredRisk : Type := {
  sr_mode : option RiskMode.t;
  sr_riskCash : option number;
  sr_riskPercent : option number;
  sr_accountSize : option number;
  sr_notional : option number
}.

Record StoredInstrument : Type := {
  si_symbol : option string;
  si_contractMultiplier : option number;
  si_lotStep : option number;
  si_minLot : option number;
  si_feePerUnit : option number;
  si_priceTick : option number
}.

Record StoredForm : Type := {
  sf_direction : option TradeDirection;
  sf_setups : option StoredSetups;
  sf_level : option number;
  sf_atr : option number;
  sf_rrMultiple : option number;
  sf_bufferRatio : option number;
  sf_rangePassed : option number;
  sf_currentPrice : option number;
  sf_enableAtrFilter : option bool;
  sf_stopSettings : option StopSettings;
  sf_risk : option StoredRisk;
  sf_instrument : option StoredInstrument
}.

(** [object?.property] *)
Definition optChain {A B : Type} (object : option A) (property : A -> option B)
  : option B :=
  match object with
  | Some object => property object
  | None => None
  end.

Definition normalizeNullable (value fallback : option number) : option number :=
  match value with
  | None => fallback
  | Some _ => value
  end.

Definition mergeFormState (incoming : StoredForm) : FormState :=
  {| fs_direction := sf_direction incoming ?? fs_direction DEFAULT_STATE;
     fs_setups :=
       {| su_breakout :=
            optChain (sf_setups incoming) sto_breakout
            ?? su_breakout (fs_setups DEFAULT_STATE);
          su_false_breakout :=
            optChain (sf_setups incoming) sto_false_breakout
            ?? su_false_breakout (fs_setups DEFAULT_STATE) |};
     fs_level := normalizeNullable (sf_level incoming) (fs_level DEFAULT_STATE);
     fs_atr := normalizeNullable (sf_atr incoming) (fs_atr DEFAULT_STATE);
     fs_rrMultiple :=
       normalizeNullable (sf_rrMultiple incoming) (fs_rrMultiple DEFAULT_STATE);
     fs_bufferRatio :=
       normalizeNullable (sf_bufferRatio incoming)
         (fs_bufferRatio DEFAULT_STATE);
     fs_rangePassed := normalizeNullable (sf_rangePassed incoming) None;
     fs_currentPrice := normalizeNullable (sf_currentPrice incoming) None;
     fs_enableAtrFilter :=
       sf_enableAtrFilter incoming ?? fs_enableAtrFilter DEFAULT_STATE;
     fs_stopSettings :=
       {| ss_percent :=
            normalizeNullable (optChain (sf_stopSettings incoming) ss_percent)
              (ss_percent (fs_stopSettings DEFAULT_STATE));
          ss_atrMultiple :=
            normalizeNullable
              (optChain (sf_stopSettings incoming) ss_atrMultiple)
              (ss_atrMultiple (fs_stopSettings DEFAULT_STATE));
          ss_points :=
            normalizeNullable (optChain (sf_stopSettings incoming) ss_points)
              (ss_points (fs_stopSettings DEFAULT_STATE)) |};
     fs_risk :=
       {| rs_mode :=
            optChain (sf_risk incoming) sr_mode ?? rs_mode (fs_risk DEFAULT_STATE);
          rs_riskCash :=
            normalizeNullable (optChain (sf_risk incoming) sr_riskCash)
              (rs_riskCash (fs_risk DEFAULT_STATE));
          rs_riskPercent :=
            normalizeNullable (optChain (sf_risk incoming) sr_riskPercent)
              (rs_riskPercent (fs_risk DEFAULT_STATE));
          rs_accountSize :=
            normalizeNullable (optChain (sf_risk incoming) sr_accountSize)
              (rs_accountSize (fs_risk DEFAULT_STATE));
          rs_notional :=
            normalizeNullable (optChain (sf_risk incoming) sr_notional)
              (rs_notional (fs_risk DEFAULT_STATE)) |};
     fs_instrument :=
       {| is_symbol :=
            optChain (sf_instrument incoming) si_symbol
            ?? is_symbol (fs_instrument DEFAULT_STATE);
          is_contractMultiplier :=
            normalizeNullable
              (optChain (sf_instrument incoming) si_contractMultiplier)
              (is_contractMultiplier (fs_instrument DEFAULT_STATE));
          is_lotStep :=
            normalizeNullable (optChain (sf_instrument incoming) si_lotStep)
              (is_lotStep (fs_instrument DEFAULT_STATE));
          is_minLot :=
            normalizeNullable (optChain (sf_instrument incoming) si_minLot)
              (is_minLot (fs_instrument DEFAULT_STATE));
          is_feePerUnit :=
            normalizeNullable (optChain (sf_instrument incoming) si_feePerUnit)
              (is_feePerUnit (fs_instrument DEFAULT_STATE));
          is_priceTick :=
            normalizeNullable (optChain (sf_instrument incoming) si_priceTick)
              (is_priceTick (fs_instrument DEFAULT_STATE)) |} |}.

(** The stored image of a form state, as [storageSet] writes it: every
    property present, a [null] where the state has one. *)
Definition storedForm (state : FormState) : StoredForm :=
  {| sf_direction := Some (fs_direction state);
     sf_setups :=
       Some {| sto_breakout := Some (su_breakout (fs_setups state));
               sto_false_breakout :=
                 Some (su_false_breakout (fs_setups state)) |};
     sf_level := fs_level state; sf_atr := fs_atr state;
     sf_rrMultiple := fs_rrMultiple state;
     sf_bufferRatio := fs_bufferRatio state;
     sf_rangePassed := fs_rangePassed state;
     sf_currentPrice := fs_currentPrice state;
     sf_enableAtrFilter := Some (fs_enableAtrFilter state);
     sf_stopSettings := Some (fs_stopSettings state);
     sf_risk :=
       Some {| sr_mode := Some (rs_mode (fs_risk state));
               sr_riskCash := rs_riskCash (fs_risk state);
               sr_riskPercent := rs_riskPercent (fs_risk state);
               sr_accountSize := rs_accountSize (fs_risk state);
               sr_notional := rs_notional (fs_risk state) |};
     sf_instrument :=
       Some {| si_symbol := Some (is_symbol (fs_instrument state));
               si_contractMultiplier :=
                 is_contractMultiplier (fs_instrument state);
               si_lotStep := is_lotStep (fs_instrument state);
               si_minLot := is_minLot (fs_instrument state);
               si_feePerUnit := is_feePerUnit (fs_instrument state);
               si_priceTick := is_priceTick (fs_instrument state) |} |}.

(** The numeric fields of a form that have a default, in the order level,
    atr, rrMultiple, bufferRatio, the three stop settings, the four risk
    entries and the five instrument entries. *)
Definition defaultedFields (state : FormState) : list (option number) :=
  [ fs_level state; fs_atr state; fs_rrMultiple state; fs_bufferRatio state;
    ss_percent (fs_stopSettings state);
    ss_atrMultiple (fs_stopSettings state);
    ss_points (fs_stopSettings state);
    rs_riskCash (fs_risk state); rs_riskPercent (fs_risk state);
    rs_accountSize (fs_risk state); rs_notional (fs_risk state);
    is_contractMultiplier (fs_instrument state);
    is_lotStep (fs_instrument state); is_minLot (fs_instrument state);
    is_feePerUnit (fs_instrument state); is_priceTick (fs_instrument state) ].

(** The stored entries behind the defaulted numeric fields, in the order of
    [defaultedFields]. *)
Definition storedFields (incoming : StoredForm) : list (option number) :=
  [ sf_level incoming; sf_atr incoming; sf_rrMultiple incoming;
    sf_bufferRatio incoming;
    optChain (sf_stopSettings incoming) ss_percent;
    optChain (sf_stopSettings incoming) ss_atrMultiple;
    optChain (sf_stopSettings incoming) ss_points;
    optChain (sf_risk incoming) sr_riskCash;
    optChain (sf_risk incoming) sr_riskPercent;
    optChain (sf_risk incoming) sr_accountSize;
    optChain (sf_risk incoming) sr_notional;
    optChain (sf_instrument incoming) si_contractMultiplier;
    optChain (sf_instrument incoming) si_lotStep;
    optChain (sf_instrument incoming) si_minLot;
    optChain (sf_instrument incoming) si_feePerUnit;
    optChain (sf_instrument incoming) si_priceTick ].

(** A merged field holds the stored number when there is one and the
    default otherwise. *)
Definition keptOrDefaulted (stored fallback merged : option number) : Prop :=
  match stored with
  | Some value => merged = Some value
  | None => merged = fallback
  end.

(** ** What the warnings panel and the summary show (lines 1611-1713)

    [renderWarnings] collects its lines in a [Set], which keeps the order
    of first insertion; [renderSummary] picks one row.  Both then write
    into the page, which is left out. *)

(** [set.add(value)] on a set kept in insertion order. *)
Definition setAdd (set : list string) (value : string) : list string :=
  if existsb (String.eqb value) set then set else (set ++ [value])%list.

(** The template [`${SETUP_LABELS[row.setup]} / ${STOP_LABELS[row.stopType]}:
    ${text}`]. *)
Definition warningLine (row : ResultRow) (text : string) : string :=
  SETUP_LABELS (row_setup row) ++ " / " ++ STOP_LABELS (row_stopType row)
  ++ ": " ++ text.

Definition minLotNote : string :=
  "Quantity adjusted to match minimum lot constraints".

(** The body of [rows.forEach] in [renderWarnings]. *)
Definition addRowWarnings (warnings : list string) (row : ResultRow)
  : list string :=
  let warnings :=
    if truthyText (row_error row)
    then setAdd warnings (warningLine row (row_error row ?? EmptyString))
    else warnings in
  match row_response row with
  | Some response =>
      let warnings :=
        fold_left
          (fun warnings warning => setAdd warnings (warningLine row warning))
          (tr_warnings (result response)) warnings in
      if tr_belowMinLot (result response) then setAdd warnings minLotNote
      else warnings
  | None => warnings
  end.

(** The set [renderWarnings] has built when it reaches [warnings.size]. *)
Definition warningSet (rows : list ResultRow) : list string :=
  fold_left addRowWarnings rows [].

Definition hasResponse (row : ResultRow) : bool :=
  match row_response row with Some _ => true | None => false end.

Definition setup_eqb (a b : SetupType) : bool :=
  match a, b with
  | Breakout, Breakout | FalseBreakout, FalseBreakout => true
  | _, _ => false
  end.

Definition stopType_eqb (a b : StopType) : bool :=
  match a, b with
  | FixedPercent, FixedPercent | AtrMultiple, AtrMultiple
  | FixedPoints, FixedPoints => true
  | _, _ => false
  end.

(** The [row] of [renderSummary]: [rows.find(...) || rows.find(...)]. *)
Definition summaryRow (rows : list ResultRow) : option ResultRow :=
  match
    find (fun item =>
            hasResponse item && setup_eqb (row_setup item) Breakout
            && stopType_eqb (row_stopType item) FixedPercent) rows
  with
  | Some row => Some row
  | None => find (fun item => hasResponse item) rows
  end.

(** ** Saving a preset (lines 1876-1877 of [handleSavePreset]) *)

Record Preset : Type := {
  preset_id : string;
  preset_name : string;
  preset_risk : RiskState;
  preset_instrument : InstrumentState
}.

(** [presets = presets.filter((item) => item.name !== trimmed);
    presets.push(preset)], where [preset.name] is [trimmed]. *)
Definition savePreset (presets : list Preset) (preset : Preset) : list Preset :=
  (filter (fun item =>
             negb (String.eqb (preset_name item) (preset_name preset)))
     presets ++ [preset])%list.

(** The lines one row contributes to the warnings panel. *)
Definition rowLine (row : ResultRow) (line : string) : Prop :=
  (truthyText (row_error row) = true /\
   line = warningLine row (row_error row ?? EmptyString)) \/
  exists response,
    row_response row = Some response /\
    ((exists warning,
         In warning (tr_warnings (result response)) /\
         line = warningLine row warning) \/
     (tr_belowMinLot (result response) = true /\ line = minLotNote)).

(** ** Concrete states *)

(** A storage that holds nothing of the form. *)
Definition emptyStored : StoredForm :=
  {| sf_direction := None; sf_setups := None; sf_level := None;
     sf_atr := None; sf_rrMultiple := None; sf_bufferRatio := None;
     sf_rangePassed := None; sf_currentPrice := None;
     sf_enableAtrFilter := None; sf_stopSettings := None; sf_risk := None;
     sf_instrument := None |}.

(** A storage that holds an ATR of 5 and nothing else. *)
Definition storedAtr : StoredForm :=
  {| sf_direction := None; sf_setups := None; sf_level := None;
     sf_atr := Some 5; sf_rrMultiple := None; sf_bufferRatio := None;
     sf_rangePassed := None; sf_currentPrice := None;
     sf_enableAtrFilter := None; sf_stopSettings := None; sf_risk := None;
     sf_instrument := None |}.

(** The default form with the level left empty. *)
Definition stateWithoutLevel : FormState :=
  {| fs_direction := Long; fs_setups := fs_setups DEFAULT_STATE;
     fs_level := None; fs_atr := fs_atr DEFAULT_STATE;
     fs_rrMultiple := fs_rrMultiple DEFAULT_STATE;
     fs_bufferRatio := fs_bufferRatio DEFAULT_STATE;
     fs_rangePassed := None; fs_currentPrice := None;
     fs_enableAtrFilter := true;
     fs_stopSettings := fs_stopSettings DEFAULT_STATE;
     fs_risk := fs_risk DEFAULT_STATE;
     fs_instrument := fs_instrument DEFAULT_STATE |}.

Definition presetNamed (name : string) : Preset :=
  {| preset_id := name; preset_name := name;
     preset_risk := fs_risk DEFAULT_STATE;
     preset_instrument := fs_instrument DEFAULT_STATE |}.

(** * The calculation core over binary64 (lines 94-342)

    The same functions once more, with a [number] as the IEEE-754 binary64
    value the program computes with: [float] is the kernel's primitive
    binary64 type, [+], [-], [*], [/] round to nearest (ties to even),
    comparisons are the IEEE ones ([NaN] compares false, [-0] equals [0]),
    and overflow, underflow, [NaN] and the infinities behave as in the
    program.  The values a call returns are settled in this model. *)

Module Binary64.

Import PrimFloat SpecFloat FloatOps FloatAxioms.

#[local] Set Warnings "-inexact-float".
Local Open Scope float_scope.

Declare Scope binary64_scope.
Notation "x >? y" := (PrimFloat.ltb y x)
  (at level 70, no associativity, only parsing) : binary64_scope.
Local Open Scope binary64_scope.

Definition number : Type := float.

(** ** The built-ins the source uses *)

(** The double of a whole number below 2^53. *)
Definition ofZ (z : Z) : number := of_uint63 (Uint63Axioms.of_Z z).

(** [Number.isFinite(x)] *)
Definition Number_isFinite (x : number) : bool := is_finite x.

(** [Math.max(x, y)]: [NaN] when an argument is [NaN]; [-0] is smaller
    than [+0]. *)
Definition Math_max (x y : number) : number :=
  if is_nan x || is_nan y then nan
  else if x <? y then y
  else if y <? x then x
  else if get_sign x then y else x.

(** [Math.floor(x)] and [Math.ceil(x)].  A finite [x] is [m * 2^e] with
    its sign; with [e >= 0] it is whole already, otherwise the quotient of
    [m] by [2^-e] is rounded towards minus or plus infinity.  [NaN], the
    infinities and the zeros are returned as they are; [Math.ceil] of a
    number in (-1, 0) is [-0]. *)
Definition Math_floor (x : number) : number :=
  match Prim2SF x with
  | S754_finite s m (Zneg k) =>
      let q := Z.shiftr (Zpos m) (Zpos k) in
      let whole := Z.eqb (Z.shiftl q (Zpos k)) (Zpos m) in
      if s then - ofZ (if whole then q else q + 1)%Z else ofZ q
  | _ => x
  end.

Definition Math_ceil (x : number) : number :=
  match Prim2SF x with
  | S754_finite s m (Zneg k) =>
      let q := Z.shiftr (Zpos m) (Zpos k) in
      let whole := Z.eqb (Z.shiftl q (Zpos k)) (Zpos m) in
      if s then - ofZ q else ofZ (if whole then q else q + 1)%Z
  | _ => x
  end.

(** The integer [n] for which [n / 10^8 - a] is closest to zero, the larger
    one on a tie, for the magnitude [a = m * 2^e]. *)
Definition fixedDigits (m : positive) (e : Z) : Z :=
  match e with
  | Zneg k => Z.shiftr (2 * Zpos m * 10 ^ 8 + 2 ^ Zpos k) (Zpos k + 1)
  | _ => Zpos m * 2 ^ e * 10 ^ 8
  end%Z.

(** The double nearest to [n / 10^8] (ties to even): what [Number] reads
    from the decimal text of [toFixed(8)]. *)
Definition readFixed (n : Z) : number :=
  match n with
  | Zpos p =>
      SF2Prim (SF64div (S754_finite false p 0)
                       (S754_finite false (10 ^ 8) 0))
  | _ => 0
  end.

(** [Number(x.toFixed(8))].  [toFixed] writes the sign of a negative
    number, then, when the magnitude is below 10^21, the digits of
    [fixedDigits] with the decimal point eight places from the right; from
    10^21 on, and for [NaN] and the infinities, it prints the number
    itself.  [Number] reads the text back. *)
Definition toFixed8 (x : number) : number :=
  match Prim2SF x with
  | S754_finite s m e =>
      if 1e21 <=? abs x then x
      else
        let v := readFixed (fixedDigits m e) in
        if x <? 0 then - v else v
  | S754_zero _ => 0
  | _ => x
  end.

(** [number | 'UNKNOWN'] *)
Inductive RangeOverStop : Type :=
| RangeNumber (ratio : number)
| RANGE_UNKNOWN.

(** ** Data model (lines 20-91) *)

Record InstrumentProfile : Type := {
  ip_symbol : string;
  ip_contractMultiplier : number;
  ip_lotStep : number;
  ip_minLot : number;
  ip_feePerUnit : option number;
  ip_priceTick : option number
}.

Record RiskProfile : Type := {
  rp_mode : RiskMode.t;
  rp_accountSize : option number;
  rp_riskCash : option number;
  rp_riskPercent : option number;
  rp_notional : option number
}.

Record StopConfig : Type := {
  sc_type : StopType;
  sc_percent : option number;
  sc_atrMultiple : option number;
  sc_points : option number
}.

Record TradeInput : Type := {
  ti_direction : TradeDirection;
  ti_setup : SetupType;
  ti_level : number;
  ti_atr : number;
  ti_rrMultiple : number;
  ti_stop : StopConfig;
  ti_bufferRatio : number;
  ti_rangePassed : option number;
  ti_currentPrice : option number;
  ti_enableAtrFilter : option bool;
  ti_instrument : InstrumentProfile;
  ti_riskProfile : RiskProfile
}.

Record PositionSummary : Type := {
  ps_riskCash : number;
  ps_estFees : number;
  ps_pnlAtTp : number;
  ps_pnlAtSl : number
}.

Record TradeResult : Type := {
  tr_direction : TradeDirection;
  tr_setup : SetupType;
  tr_level : number;
  tr_stop : number;
  tr_buffer : number;
  tr_tvx : number;
  tr_slPrice : number;
  tr_tpPrice : number;
  tr_rrMultiple : number;
  tr_atrOverStop : number;
  tr_rangeOverStop : RangeOverStop;
  tr_hasFourStops : bool;
  tr_stopWithinAtrFilter : bool;
  tr_warnings : list string;
  tr_quantity : number;
  tr_notional : number;
  tr_belowMinLot : bool;
  tr_positionSummary : PositionSummary;
  tr_currentPriceToTvx : option number;
  tr_stopAtrPercent : number
}.

Record Meta : Type := {
  meta_usedRiskCash : number;
  meta_usedNotional : option number
}.

Record TradeCalcResponse : Type := {
  result : TradeResult;
  meta : Meta
}.

(** ** Helpers for each formula (lines 94-159) *)

Definition roundDownToStep (qty step : number) : number :=
  if step <=? 0 then Math_max qty 0
  else
    let scaled := qty / step in
    let floored := Math_floor (scaled + 1e-9) in
    let rounded := floored * step in
    let normalized :=
      if Number_isFinite rounded then toFixed8 rounded else 0 in
    if normalized <? 0 then 0 else normalized.

Definition roundUpToStep (qty step : number) : number :=
  if step <=? 0 then Math_max qty 0
  else
    let scaled := qty / step in
    let ceiled := Math_ceil (scaled - 1e-9) in
    let rounded := ceiled * step in
    let normalized :=
      if Number_isFinite rounded then toFixed8 rounded else 0 in
    if normalized <? 0 then 0 else normalized.

Definition computeStop (input : TradeInput) : number :=
  let stop := ti_stop input in
  let level := ti_level input in
  let atr := ti_atr input in
  match sc_type stop with
  | FixedPercent => ((sc_percent stop ?? 0.3) / 100) * level
  | AtrMultiple => (sc_atrMultiple stop ?? 0.5) * atr
  | FixedPoints => sc_points stop ?? 0
  end.

Definition computeBuffer (stop bufferRatio : number) : number :=
  stop * bufferRatio.

Definition computeTvx (input : TradeInput) (buffer : number) : number :=
  if direction_eqb (ti_direction input) Long
  then ti_level input + buffer
  else ti_level input - buffer.

Definition computeSlPrice (input : TradeInput) (stop : number) : number :=
  if direction_eqb (ti_direction input) Long
  then ti_level input - stop
  else ti_level input + stop.

Definition computeTpPrice (input : TradeInput) (tvx stop : number) : number :=
  if direction_eqb (ti_direction input) Long
  then tvx + ti_rrMultiple input * stop
  else tvx - ti_rrMultiple input * stop.

(** ** Risk sizing (lines 162-220) *)

Definition costPerUnit (stopValuePerUnit feePerUnit : number) : number :=
  stopValuePerUnit + feePerUnit.

Record Sizing : Type := {
  sz_quantity : number;
  sz_usedRiskCash : number;
  sz_notional : number;
  sz_estFees : number;
  sz_belowMinLot : bool
}.

Definition unitCost (input : TradeInput) (stop : number) : number :=
  let instrument := ti_instrument input in
  let feePerUnit := ip_feePerUnit instrument ?? 0 in
  let contractMultiplier := ip_contractMultiplier instrument in
  let stopValuePerUnit := stop * contractMultiplier in
  costPerUnit stopValuePerUnit feePerUnit.

Definition qtyRaw (input : TradeInput) (stop : number) : number :=
  let riskProfile := ti_riskProfile input in
  let level := ti_level input in
  let contractMultiplier := ip_contractMultiplier (ti_instrument input) in
  match rp_mode riskProfile with
  | RiskMode.risk_cash =>
      let riskCash := rp_riskCash riskProfile ?? 0 in
      Math_max (Math_floor (riskCash / unitCost input stop)) 0
  | RiskMode.risk_percent =>
      let accountSize := rp_accountSize riskProfile ?? 0 in
      let riskCash := (accountSize * (rp_riskPercent riskProfile ?? 0)) / 100 in
      Math_max (Math_floor (riskCash / unitCost input stop)) 0
  | RiskMode.notional =>
      let notional := rp_notional riskProfile ?? 0 in
      let denom := level * contractMultiplier in
      if denom >? 0 then Math_max (Math_floor (notional / denom)) 0
      else 0
  end.

Definition lotStepOf (input : TradeInput) : number :=
  let instrument := ti_instrument input in
  if ip_lotStep instrument >? 0 then ip_lotStep instrument else 1.

Definition roundedQty (input : TradeInput) (stop : number) : number :=
  roundDownToStep (qtyRaw input stop) (lotStepOf input).

Definition minLotOf (input : TradeInput) : number :=
  let instrument := ti_instrument input in
  if ip_minLot instrument >? 0 then ip_minLot instrument else 0.

Definition minLotAligned (input : TradeInput) : number :=
  let step := lotStepOf input in
  let minLot := minLotOf input in
  if minLot >? 0 then Math_max (roundUpToStep minLot step) minLot else 0.

Definition calcQuantity (input : TradeInput) (stop : number) : Result Sizing :=
  let instrument := ti_instrument input in
  let level := ti_level input in
  let feePerUnit := ip_feePerUnit instrument ?? 0 in
  let contractMultiplier := ip_contractMultiplier instrument in
  let unitCost := unitCost input stop in
  if negb (Number_isFinite unitCost) || (unitCost <=? 0)
  then Throw "Calculated unit cost must be positive and finite"
  else
    let roundedQty := roundedQty input stop in
    let minLotAligned := minLotAligned input in
    let quantity :=
      if minLotAligned >? 0 then Math_max roundedQty minLotAligned
      else roundedQty in
    let quantity :=
      if Number_isFinite quantity then toFixed8 quantity else 0 in
    let belowMinLot :=
      (minLotAligned >? 0) && (roundedQty <? minLotAligned)
      && (quantity >? 0) in
    let estFees := quantity * feePerUnit in
    let notional := quantity * level * contractMultiplier in
    let usedRiskCash := quantity * unitCost in
    Ok {| sz_quantity := quantity;
          sz_usedRiskCash := usedRiskCash;
          sz_notional := notional;
          sz_estFees := estFees;
          sz_belowMinLot := belowMinLot |}.

(** ** Main functionality (lines 238-342) *)

Definition calculateTrade (input : TradeInput) : Result TradeCalcResponse :=
  if ti_level input <=? 0 then Throw "Level must be greater than zero"
  else if ti_atr input <=? 0 then Throw "ATR must be greater than zero"
  else if ti_rrMultiple input <=? 0
  then Throw "Risk/reward multiple must be greater than zero"
  else if ti_bufferRatio input <? 0
  then Throw "Buffer ratio must be non-negative"
  else if ip_contractMultiplier (ti_instrument input) <=? 0
  then Throw "Contract multiplier must be greater than zero"
  else
    let stop := computeStop input in
    if stop <=? 0 then Throw "Computed stop must be greater than zero"
    else
      let buffer := computeBuffer stop (ti_bufferRatio input) in
      let tvx := computeTvx input buffer in
      let slPrice := computeSlPrice input stop in
      let tpPrice := computeTpPrice input tvx stop in
      let contractMultiplier := ip_contractMultiplier (ti_instrument input) in
      let atrOverStop := ti_atr input / stop in
      let rangeOverStop :=
        match ti_rangePassed input with
        | Some rangePassed => RangeNumber (rangePassed / stop)
        | None => RANGE_UNKNOWN
        end in
      let hasRange :=
        match rangeOverStop with
        | RangeNumber _ => true
        | RANGE_UNKNOWN => false
        end in
      let atrCheckFailed := atrOverStop <? 4 in
      let rangeCheckFailedFlag :=
        match rangeOverStop with
        | RangeNumber ratio => ratio <? 4
        | RANGE_UNKNOWN => false
        end in
      let hasFourStops :=
        negb atrCheckFailed && (negb hasRange || negb rangeCheckFailedFlag) in
      let stopWithinFilter :=
        negb (JS.truthy (ti_enableAtrFilter input))
        || (stop <=? 0.2 * ti_atr input) in
      match calcQuantity input stop with
      | Throw message => Throw message
      | Ok sizing =>
          let quantity := sz_quantity sizing in
          let usedRiskCash := sz_usedRiskCash sizing in
          let notional := sz_notional sizing in
          let estFees := sz_estFees sizing in
          let belowMinLot := sz_belowMinLot sizing in
          let warningInput :=
            {| wi_atrCheckFailed := atrCheckFailed;
               wi_rangeCheckFailed :=
                 if hasRange then Some rangeCheckFailedFlag else None;
               wi_stopFilterFailed := negb stopWithinFilter;
               wi_belowMinLot := belowMinLot |} in
          let warnings := collectWarnings warningInput in
          let tpDistance :=
            if direction_eqb (ti_direction input) Long
            then tpPrice - tvx else tvx - tpPrice in
          let slDistance :=
            if direction_eqb (ti_direction input) Long
            then tvx - slPrice else slPrice - tvx in
          let pnlAtTp := tpDistance * quantity * contractMultiplier in
          let pnlAtSl := (- slDistance) * quantity * contractMultiplier in
          Ok {| result :=
                  {| tr_direction := ti_direction input;
                     tr_setup := ti_setup input;
                     tr_level := ti_level input;
                     tr_stop := stop;
                     tr_buffer := buffer;
                     tr_tvx := tvx;
                     tr_slPrice := slPrice;
                     tr_tpPrice := tpPrice;
                     tr_rrMultiple := ti_rrMultiple input;
                     tr_atrOverStop := atrOverStop;
                     tr_rangeOverStop := rangeOverStop;
                     tr_hasFourStops := hasFourStops;
                     tr_stopWithinAtrFilter := stopWithinFilter;
                     tr_warnings := warnings;
                     tr_quantity := quantity;
                     tr_notional := notional;
                     tr_belowMinLot := belowMinLot;
                     tr_positionSummary :=
                       {| ps_riskCash := usedRiskCash;
                          ps_estFees := estFees;
                          ps_pnlAtTp := pnlAtTp;
                          ps_pnlAtSl := pnlAtSl |};
                     tr_currentPriceToTvx :=
                       match ti_currentPrice input with
                       | Some currentPrice => Some (currentPrice - tvx)
                       | None => None
                       end;
                     tr_stopAtrPercent :=
                       if ti_atr input >? 0
                       then (stop / ti_atr input) * 100
                       else infinity |};
                meta :=
                  {| meta_usedRiskCash := usedRiskCash;
                     meta_usedNotional :=
                       match rp_mode (ti_riskProfile input) with
                       | RiskMode.notional => Some notional
                       | _ => None
                       end |} |}
      end.

(** ** Reading the contract *)

(** None of the five base-validation guards of [calculateTrade] fires. *)
Definition baseValid (input : TradeInput) : bool :=
  negb (ti_level input <=? 0) && negb (ti_atr input <=? 0)
  && negb (ti_rrMultiple input <=? 0) && negb (ti_bufferRatio input <? 0)
  && negb (ip_contractMultiplier (ti_instrument input) <=? 0).

(** The call throws. *)
Definition throws (input : TradeInput) : Prop :=
  exists message, calculateTrade input = Throw message.

(** The rational a double stands for; zero for [NaN] and the infinities. *)
Definition exact (x : number) : Q :=
  match Prim2SF x with
  | S754_finite s m e =>
      let magnitude := (inject_Z (Zpos m) * 2 ^ e)%Q in
      if s then (- magnitude)%Q else magnitude
  | _ => 0%Q
  end.

(** [expect(received).toBeCloseTo(expected, 6)] of the test suite:
    [Math.abs(expected - received) < 10 ** -6 / 2]. *)
Definition toBeCloseTo6 (received expected : number) : bool :=
  abs (expected - received) <? 1e-6 / 2.

(** ** Concrete inputs (the fixtures of the repository's test suite) *)

Definition baseInstrument : InstrumentProfile :=
  {| ip_symbol := "TEST"; ip_contractMultiplier := 1; ip_lotStep := 1;
     ip_minLot := 1; ip_feePerUnit := Some 0.2; ip_priceTick := None |}.

Definition baseRisk : RiskProfile :=
  {| rp_mode := RiskMode.risk_cash; rp_accountSize := None;
     rp_riskCash := Some 100; rp_riskPercent := None; rp_notional := None |}.

Definition stopOf (type : StopType) (value : number) : StopConfig :=
  {| sc_type := type;
     sc_percent := match type with FixedPercent => Some value | _ => None end;
     sc_atrMultiple :=
       match type with AtrMultiple => Some value | _ => None end;
     sc_points := match type with FixedPoints => Some value | _ => None end |}.

(** 'computes breakout long with fixed percent stop' *)
Definition scenarioA : TradeInput :=
  {| ti_direction := Long; ti_setup := Breakout; ti_level := 100;
     ti_atr := 2; ti_rrMultiple := 3; ti_stop := stopOf FixedPercent 0.3;
     ti_bufferRatio := 0.2; ti_rangePassed := None;
     ti_currentPrice := Some 99.5; ti_enableAtrFilter := Some true;
     ti_instrument := baseInstrument; ti_riskProfile := baseRisk |}.

(** Scenario A's instrument and budget replaced: a stop of [points], no
    fee, and the given lot step, minimum lot and cash at risk. *)
Definition sizingInput (points lotStep minLot riskCash : number) : TradeInput :=
  {| ti_direction := Long; ti_setup := Breakout; ti_level := 100;
     ti_atr := 2; ti_rrMultiple := 3; ti_stop := stopOf FixedPoints points;
     ti_bufferRatio := 0.2; ti_rangePassed := None;
     ti_currentPrice := None; ti_enableAtrFilter := Some true;
     ti_instrument :=
       {| ip_symbol := "TEST"; ip_contractMultiplier := 1;
          ip_lotStep := lotStep; ip_minLot := minLot;
          ip_feePerUnit := Some 0; ip_priceTick := None |};
     ti_riskProfile :=
       {| rp_mode := RiskMode.risk_cash; rp_accountSize := None;
          rp_riskCash := Some riskCash; rp_riskPercent := None;
          rp_notional := None |} |}.




(** Scenario A at a level and a contract multiplier whose product with the
    stop percentage is beyond the largest double. *)
Definition overflowingCost : TradeInput :=
  {| ti_direction := Long; ti_setup := Breakout; ti_level := 1e308;
     ti_atr := 2; ti_rrMultiple := 3; ti_stop := stopOf FixedPercent 0.3;
     ti_bufferRatio := 0.2; ti_rangePassed := None;
     ti_currentPrice := None; ti_enableAtrFilter := Some true;
     ti_instrument :=
       {| ip_symbol := "TEST"; ip_contractMultiplier := 1000; ip_lotStep := 1;
          ip_minLot := 1; ip_feePerUnit := Some 0.2; ip_priceTick := None |};
     ti_riskProfile := baseRisk |}.

End Binary64.

(** * Properties of the calculation core in exact arithmetic *)

(** ** Comparisons *)

Section Comparisons.

Variables x y : number.

Lemma leb_true : (x <=? y) = true <-> x <= y.
Proof. apply Qle_bool_iff. Qed.

Lemma leb_false : (x <=? y) = false <-> y < x.
Proof.
  unfold JS.leb. rewrite <- not_true_iff_false, Qle_bool_iff.
  split; intro H; [apply Qnot_le_lt | apply Qlt_not_le]; exact H.
Qed.

Lemma ltb_true : (x <? y) = true <-> x < y.
Proof.
  unfold JS.ltb. rewrite negb_true_iff.
  change (Qle_bool y x) with (y <=? x). unfold JS.leb.
  rewrite <- not_true_iff_false, Qle_bool_iff.
  split; intro H; [apply Qnot_le_lt | apply Qlt_not_le]; exact H.
Qed.

Lemma ltb_false : (x <? y) = false <-> y <= x.
Proof. unfold JS.ltb. rewrite negb_false_iff. apply Qle_bool_iff. Qed.

End Comparisons.

(** Turns every comparison test recorded in the context into the order
    fact it decides. *)
Ltac reflect_cmp :=
  repeat match goal with
    | H : (_ <=? _) = true |- _ => apply leb_true in H
    | H : (_ <=? _) = false |- _ => apply leb_false in H
    | H : (_ <? _) = true |- _ => apply ltb_true in H
    | H : (_ <? _) = false |- _ => apply ltb_false in H
    end.

(** Case analysis on the first comparison test found in the goal. *)
Ltac case_cmp :=
  match goal with
  | |- context [?a <=? ?b] =>
      let E := fresh "Hcmp" in destruct (a <=? b) eqn:E
  | |- context [?a <? ?b] =>
      let E := fresh "Hcmp" in destruct (a <? b) eqn:E
  end; reflect_cmp.

(** The decimal constants of the source, as plain fractions. *)
Ltac plain_consts :=
  change 1e-9 with (1 # 1000000000) in *;
  change 1e8 with (100000000 # 1) in *;
  change 1e21 with (1000000000000000000000 # 1) in *.

Lemma div_mul (x y : Q) : ~ y == 0 -> (x / y) * y == x.
Proof. intro H. field. exact H. Qed.

(** ** Built-ins *)

Lemma Math_max_cases (x y : number) :
  (x < y /\ JS.Math_max x y = y) \/ (y <= x /\ JS.Math_max x y = x).
Proof. unfold JS.Math_max. case_cmp; auto. Qed.

Lemma Math_max_0_nonneg (x : number) : 0 <= JS.Math_max x 0.
Proof. destruct (Math_max_cases x 0) as [[H ->] | [H ->]]; lra. Qed.

Lemma Math_floor_bounds (x : number) :
  JS.Math_floor x <= x /\ x < JS.Math_floor x + 1.
Proof.
  unfold JS.Math_floor. split; [apply Qfloor_le |].
  pose proof (Qlt_floor x) as H. rewrite inject_Z_plus in H. exact H.
Qed.

Lemma Math_ceil_bounds (x : number) :
  x <= JS.Math_ceil x /\ JS.Math_ceil x - 1 < x.
Proof.
  unfold JS.Math_ceil. split; [apply Qle_ceiling |].
  pose proof (Qceiling_lt x) as H.
  unfold Z.sub in H. rewrite inject_Z_plus in H. exact H.
Qed.

Lemma toFixed8_nonneg (x : number) : 0 <= x -> 0 <= JS.toFixed8 x.
Proof.
  intro Hx. unfold JS.toFixed8. cbv zeta.
  case_cmp; [exact Hx |]. clear Hcmp.
  destruct (Math_floor_bounds (Qabs x * 1e8 + 0.5)) as [Hlo Hhi].
  unfold JS.Math_floor in Hlo, Hhi.
  assert (Hn : (0 <= Qfloor (Qabs x * 1e8 + 0.5))%Z).
  { rewrite <- (Qfloor_Z 0). apply Qfloor_resp_le.
    pose proof (Qabs_nonneg x). plain_consts. change (inject_Z 0) with 0. lra. }
  rewrite Zle_Qle in Hn. change (inject_Z 0) with 0 in Hn.
  set (N := inject_Z (Qfloor (Qabs x * 1e8 + 0.5))) in *.
  pose proof (div_mul N 1e8 ltac:(plain_consts; lra)) as HM.
  set (M := N / 1e8) in *. plain_consts.
  case_cmp; lra.
Qed.

(** ** Unfolding a call that returned *)

Lemma calcQuantity_returns (input : TradeInput) (stop : number) (sz : Sizing) :
  calcQuantity input stop = Ok sz ->
  0 < unitCost input stop /\
  sz_quantity sz =
    JS.toFixed8
      (if minLotAligned input >? 0
       then JS.Math_max (roundedQty input stop) (minLotAligned input)
       else roundedQty input stop) /\
  sz_belowMinLot sz =
    (minLotAligned input >? 0) && (roundedQty input stop <? minLotAligned input)
    && (sz_quantity sz >? 0).
Proof.
  unfold calcQuantity. cbv zeta. simpl negb. rewrite orb_false_l.
  destruct (unitCost input stop <=? 0) eqn:Hcost; [discriminate |].
  intro H. injection H as <-. simpl. reflect_cmp. auto.
Qed.

(** Splits the hypothesis [H : calculateTrade i = Ok r] into the guards the
    call passed, the sizing it obtained and the response it assembled. *)
Ltac returned_call H :=
  unfold calculateTrade in H; cbv zeta in H;
  repeat match type of H with
    | (if ?c then _ else _) = Ok _ =>
        let G := fresh "Hguard" in destruct c eqn:G; [discriminate H |]
    | match ?c with Ok _ => _ | Throw _ => _ end = Ok _ =>
        let sz := fresh "sz" in
        let G := fresh "Hsizing" in
        destruct c as [sz |] eqn:G; [| discriminate H]
    end;
  injection H as <-; reflect_cmp.

(** ** Stop distance *)

(** C3.  The stop distance is [(percent/100) * level] for a fixed-percent
    stop (percent 0.3 when the field is absent), [atrMultiple * atr] for an
    ATR-multiple stop (atrMultiple 0.5 when absent) and [points] for a
    fixed-points stop (0 when absent); it is the [stop] of every response
    returned. *)
Theorem computeStop_table (input : TradeInput) :
  let stop := ti_stop input in
  (sc_type stop = FixedPercent ->
     (forall percent, sc_percent stop = Some percent ->
        computeStop input == (percent / 100) * ti_level input) /\
     (sc_percent stop = None ->
        computeStop input == (0.3 / 100) * ti_level input)) /\
  (sc_type stop = AtrMultiple ->
     (forall atrMultiple, sc_atrMultiple stop = Some atrMultiple ->
        computeStop input == atrMultiple * ti_atr input) /\
     (sc_atrMultiple stop = None ->
        computeStop input == 0.5 * ti_atr input)) /\
  (sc_type stop = FixedPoints ->
     (forall points, sc_points stop = Some points ->
        computeStop input == points) /\
     (sc_points stop = None -> computeStop input == 0)) /\
  (forall r, calculateTrade input = Ok r ->
     tr_stop (result r) = computeStop input).
Proof.
  cbv zeta. unfold computeStop. cbv zeta.
  split; [| split; [| split]].
  - intros ->. split; [intros percent -> | intros ->]; reflexivity.
  - intros ->. split; [intros atrMultiple -> | intros ->]; reflexivity.
  - intros ->. split; [intros points -> | intros ->]; reflexivity.
  - intros r H. returned_call H. reflexivity.
Qed.

Lemma computeStop_table_witness :
  calculateTrade scenarioA = Ok responseA /\
  tr_stop (result responseA) = computeStop scenarioA.
Proof.
  split; [reflexivity |].
  apply (proj2 (proj2 (proj2 (computeStop_table scenarioA)))). reflexivity.
Defined.

(** ** Input validation *)

#[local] Instance leb_Proper : Proper (Qeq ==> Qeq ==> eq) JS.leb.
Proof. exact Qleb_comp. Qed.

#[local] Instance ltb_Proper : Proper (Qeq ==> Qeq ==> eq) JS.ltb.
Proof. intros a b Hab c d Hcd. unfold JS.ltb. now rewrite Hab, Hcd. Qed.

(** C4.  An input with [level <= 0], [atr <= 0], [rrMultiple <= 0],
    [bufferRatio < 0] or [contractMultiplier <= 0] makes [calculateTrade]
    throw: no response is returned, the error is one of the five
    base-validation errors, and it is decided by the five base fields alone
    (whatever the stop, risk and instrument settings are, so before any
    derived value enters).  With [level = 0] the error is the level error,
    'Level must be greater than zero'. *)
Theorem base_validation_rejects (input : TradeInput) :
  ti_level input <= 0 \/ ti_atr input <= 0 \/ ti_rrMultiple input <= 0 \/
  ti_bufferRatio input < 0 \/
  ip_contractMultiplier (ti_instrument input) <= 0 ->
  (exists message,
      calculateTrade input = Throw message /\
      In message baseValidationMessages /\
      forall other, sameBaseFields other input ->
        calculateTrade other = Throw message) /\
  (forall r, calculateTrade input <> Ok r) /\
  (ti_level input == 0 ->
     calculateTrade input = Throw "Level must be greater than zero").
Proof.
  intro Hbad.
  assert (Hthrow :
    exists message,
      calculateTrade input = Throw message /\
      In message baseValidationMessages /\
      forall other, sameBaseFields other input ->
        calculateTrade other = Throw message).
  { unfold calculateTrade.
    destruct (ti_level input <=? 0) eqn:G1;
      [| destruct (ti_atr input <=? 0) eqn:G2;
         [| destruct (ti_rrMultiple input <=? 0) eqn:G3;
            [| destruct (ti_bufferRatio input <? 0) eqn:G4;
               [| destruct (ip_contractMultiplier (ti_instrument input) <=? 0)
                    eqn:G5 ]]]].
    all: try (eexists; split; [reflexivity |]; split;
              [simpl; tauto |];
              intros other (E1 & E2 & E3 & E4 & E5);
              rewrite E1, E2, E3, E4, E5;
              rewrite ?G1, ?G2, ?G3, ?G4, ?G5; reflexivity).
    exfalso. reflect_cmp. lra. }
  split; [exact Hthrow |]. split.
  - intros r Hr. destruct Hthrow as (message & Hm & _). congruence.
  - intro Hzero. unfold calculateTrade.
    assert (G : (ti_level input <=? 0) = true) by (apply leb_true; lra).
    rewrite G. reflexivity.
Qed.

Lemma base_validation_rejects_witness :
  ti_level invalidInput <= 0 /\
  calculateTrade invalidInput = Throw "Level must be greater than zero".
Proof.
  assert (Hlevel : ti_level invalidInput <= 0) by (vm_compute; discriminate).
  split; [exact Hlevel |].
  apply (base_validation_rejects invalidInput (or_introl Hlevel)).
  reflexivity.
Defined.

(** ** Warnings *)

Lemma collectWarnings_keep (w : WarningInput) :
  collectWarnings w =
    (keep (wi_atrCheckFailed w) "ATR/Stop < 4"
     ++ keep (JS.truthy (wi_rangeCheckFailed w)) "Range/Stop < 4"
     ++ keep (wi_stopFilterFailed w) "Stop exceeds 20% ATR limit"
     ++ keep (wi_belowMinLot w) "Qty is below minimum lot")%list.
Proof.
  unfold collectWarnings, push, keep.
  destruct (wi_atrCheckFailed w), (JS.truthy (wi_rangeCheckFailed w)),
    (wi_stopFilterFailed w), (wi_belowMinLot w); reflexivity.
Qed.

(** C6.  The warnings of a returned response are the four warnings
    'ATR/Stop < 4', 'Range/Stop < 4', 'Stop exceeds 20% ATR limit',
    'Qty is below minimum lot' in that order, each kept or dropped: the
    first is kept iff [atrOverStop < 4], the second iff [rangePassed] was
    given and [rangeOverStop < 4], the third iff [stopWithinAtrFilter] is
    false, the fourth iff [belowMinLot] is true. *)
Theorem warnings_exact (input : TradeInput) (r : TradeCalcResponse) :
  calculateTrade input = Ok r ->
  let t := result r in
  exists atrKept rangeKept filterKept minLotKept : bool,
    tr_warnings t =
      (keep atrKept "ATR/Stop < 4"
       ++ keep rangeKept "Range/Stop < 4"
       ++ keep filterKept "Stop exceeds 20% ATR limit"
       ++ keep minLotKept "Qty is below minimum lot")%list /\
    (atrKept = true <-> tr_atrOverStop t < 4) /\
    (rangeKept = true <->
       exists rangePassed ratio,
         ti_rangePassed input = Some rangePassed /\
         tr_rangeOverStop t = RangeNumber ratio /\ ratio < 4) /\
    (filterKept = true <-> tr_stopWithinAtrFilter t = false) /\
    (minLotKept = true <-> tr_belowMinLot t = true).
Proof.
  intro H. returned_call H. cbn [result tr_warnings tr_atrOverStop
    tr_rangeOverStop tr_stopWithinAtrFilter tr_belowMinLot].
  rewrite collectWarnings_keep.
  cbn [wi_atrCheckFailed wi_rangeCheckFailed wi_stopFilterFailed
       wi_belowMinLot].
  do 4 eexists. split; [reflexivity |].
  split; [apply ltb_true |]. split; [| split].
  - destruct (ti_rangePassed input) as [rangePassed |]; cbn [JS.truthy].
    + rewrite ltb_true. split.
      * intro Hlt. exists rangePassed, (rangePassed / computeStop input). auto.
      * intros (p & ratio & _ & Hratio & Hlt).
        injection Hratio as <-. exact Hlt.
    + split; [discriminate |]. intros (p & ratio & Hp & _). discriminate Hp.
  - apply negb_true_iff.
  - reflexivity.
Qed.

Lemma warnings_exact_witness :
  calculateTrade scenarioB = Ok responseB /\
  exists atrKept rangeKept filterKept minLotKept : bool,
    tr_warnings (result responseB) =
      (keep atrKept "ATR/Stop < 4"
       ++ keep rangeKept "Range/Stop < 4"
       ++ keep filterKept "Stop exceeds 20% ATR limit"
       ++ keep minLotKept "Qty is below minimum lot")%list.
Proof.
  split; [reflexivity |].
  destruct (warnings_exact scenarioB responseB eq_refl)
    as (b1 & b2 & b3 & b4 & Hw & _).
  exists b1, b2, b3, b4. exact Hw.
Defined.

(** ** The four-stops check *)

Lemma In_keep (b : bool) (w v : string) : In v (keep b w) <-> b = true /\ v = w.
Proof.
  destruct b; simpl; split; try tauto.
  - intros [-> | []]. auto.
  - intros [_ ->]. auto.
  - intros [H _]. discriminate H.
Qed.

(** C9.  In a returned response [hasFourStops] is true iff
    [atrOverStop >= 4] and either [rangePassed] is absent or
    [rangeOverStop >= 4].  A ratio of exactly 4 passes: the warnings
    'ATR/Stop < 4' and 'Range/Stop < 4' are present only for a ratio
    strictly below 4. *)
Theorem hasFourStops_iff (input : TradeInput) (r : TradeCalcResponse) :
  calculateTrade input = Ok r ->
  let t := result r in
  (tr_hasFourStops t = true <->
     4 <= tr_atrOverStop t /\
     (ti_rangePassed input = None \/
      exists ratio, tr_rangeOverStop t = RangeNumber ratio /\ 4 <= ratio)) /\
  (In "ATR/Stop < 4" (tr_warnings t) <-> tr_atrOverStop t < 4) /\
  (In "Range/Stop < 4" (tr_warnings t) <->
     exists ratio, tr_rangeOverStop t = RangeNumber ratio /\ ratio < 4) /\
  (tr_atrOverStop t == 4 ->
     (ti_rangePassed input = None \/
      exists ratio, tr_rangeOverStop t = RangeNumber ratio /\ ratio == 4) ->
     tr_hasFourStops t = true).
Proof.
  intro H. returned_call H. cbn [result tr_hasFourStops tr_atrOverStop
    tr_rangeOverStop tr_warnings].
  rewrite collectWarnings_keep.
  cbn [wi_atrCheckFailed wi_rangeCheckFailed wi_stopFilterFailed
       wi_belowMinLot].
  set (atrOverStop := ti_atr input / computeStop input).
  rewrite !in_app_iff, !In_keep, andb_true_iff, negb_true_iff, ltb_false.
  destruct (ti_rangePassed input) as [rangePassed |];
    cbn [JS.truthy negb orb]; rewrite ?negb_true_iff, ?ltb_true, ?ltb_false.
  - set (rangeOverStop := rangePassed / computeStop input).
    split; [| split; [| split]].
    + apply and_iff_compat_l. split.
      * intro Hge. right. exists rangeOverStop. auto.
      * intros [Hnone | (ratio & Hratio & Hge)]; [discriminate Hnone |].
        injection Hratio as <-. exact Hge.
    + split; [| tauto].
      intros [[Hlt _] | [[_ Hw] | [[_ Hw] | [_ Hw]]]];
        [exact Hlt | discriminate Hw ..].
    + split.
      * intros [[_ Hw] | [[Hlt _] | [[_ Hw] | [_ Hw]]]];
          [discriminate Hw | | discriminate Hw ..].
        exists rangeOverStop. auto.
      * intros (ratio & Hratio & Hlt). injection Hratio as <-. tauto.
    + intros Hatr [Hnone | (ratio & Hratio & Hfour)]; [discriminate Hnone |].
      injection Hratio as <-.
      split; [rewrite Hatr | rewrite Hfour]; lra.
  - split; [| split; [| split]].
    + apply and_iff_compat_l. split; auto.
    + split; [| tauto].
      intros [[Hlt _] | [[_ Hw] | [[_ Hw] | [_ Hw]]]];
        [exact Hlt | discriminate Hw ..].
    + split.
      * intros [[_ Hw] | [[Hf _] | [[_ Hw] | [_ Hw]]]]; discriminate.
      * intros (ratio & Hratio & _). discriminate Hratio.
    + intros Hatr _. split; [rewrite Hatr; lra | reflexivity].
Qed.

Lemma hasFourStops_iff_witness :
  calculateTrade scenarioA = Ok responseA /\
  (tr_hasFourStops (result responseA) = true <->
     4 <= tr_atrOverStop (result responseA) /\
     (ti_rangePassed scenarioA = None \/
      exists ratio,
        tr_rangeOverStop (result responseA) = RangeNumber ratio /\
        4 <= ratio)).
Proof.
  split; [reflexivity |].
  exact (proj1 (hasFourStops_iff scenarioA responseA eq_refl)).
Defined.

(** ** Quantities are never negative *)

Lemma roundDownToStep_nonneg (qty step : number) :
  0 <= roundDownToStep qty step.
Proof.
  unfold roundDownToStep. cbv zeta.
  case_cmp; [apply Math_max_0_nonneg |].
  case_cmp; lra.
Qed.

Lemma quantity_nonneg (input : TradeInput) (stop : number) (sz : Sizing) :
  calcQuantity input stop = Ok sz -> 0 <= sz_quantity sz.
Proof.
  intro H. apply calcQuantity_returns in H. destruct H as (_ & -> & _).
  apply toFixed8_nonneg.
  pose proof (roundDownToStep_nonneg (qtyRaw input stop) (lotStepOf input))
    as Hrounded.
  fold (roundedQty input stop) in Hrounded.
  case_cmp; [| exact Hrounded].
  destruct (Math_max_cases (roundedQty input stop) (minLotAligned input))
    as [[Hlt ->] | [Hle ->]]; lra.
Qed.

(** ** The ATR filter switch *)

(** When the optional [enableAtrFilter] property is left out, the test
    [!input.enableAtrFilter] succeeds, so the stop is reported as within the
    filter whatever its size. *)
Lemma absent_enableAtrFilter (input : TradeInput) (r : TradeCalcResponse) :
  ti_enableAtrFilter input = None ->
  calculateTrade input = Ok r ->
  tr_stopWithinAtrFilter (result r) = true /\
  ~ In "Stop exceeds 20% ATR limit" (tr_warnings (result r)).
Proof.
  intros Hnone H. returned_call H.
  cbn [result tr_stopWithinAtrFilter tr_warnings].
  rewrite collectWarnings_keep, Hnone.
  cbn [wi_atrCheckFailed wi_rangeCheckFailed wi_stopFilterFailed
       wi_belowMinLot JS.truthy negb orb].
  split; [reflexivity |].
  rewrite !in_app_iff, !In_keep.
  intros [[_ Hw] | [[_ Hw] | [[Hf _] | [_ Hw]]]]; discriminate.
Qed.

(** C2.  Scenario B without the [enableAtrFilter] property: the call
    returns [stopWithinAtrFilter = true] and no stop-filter warning,
    although the stop, 0.5, exceeds [0.2 * atr = 0.2].  With the property
    present and true the same input is reported as outside the filter. *)
Theorem absent_enableAtrFilter_scenarioB :
  ti_enableAtrFilter scenarioB_noFilterField = None /\
  (exists r,
     calculateTrade scenarioB_noFilterField = Ok r /\
     tr_stop (result r) == 0.5 /\
     0.2 * ti_atr scenarioB_noFilterField < tr_stop (result r) /\
     tr_stopWithinAtrFilter (result r) = true /\
     ~ In "Stop exceeds 20% ATR limit" (tr_warnings (result r))) /\
  (exists r,
     calculateTrade scenarioB = Ok r /\
     tr_stopWithinAtrFilter (result r) = false /\
     In "Stop exceeds 20% ATR limit" (tr_warnings (result r))).
Proof.
  split; [reflexivity |]. split.
  - eexists. split; [vm_compute; reflexivity |].
    cbn [result tr_stop tr_stopWithinAtrFilter tr_warnings].
    split; [vm_compute; reflexivity |].
    split; [vm_compute; reflexivity |].
    split; [reflexivity |].
    cbn. intros [Hw | [Hw | [Hw | []]]]; discriminate Hw.
  - exists responseB. split; [reflexivity |]. split; [reflexivity |].
    cbn. tauto.
Qed.

(** ** Lot alignment *)

Lemma Qfloor_half (n : Z) : Qfloor (inject_Z n + 0.5) = n.
Proof.
  destruct (Math_floor_bounds (inject_Z n + 0.5)) as [Hlo Hhi].
  unfold JS.Math_floor in Hlo, Hhi.
  set (m := Qfloor (inject_Z n + 0.5)) in *.
  assert (Hmn : inject_Z m < inject_Z (n + 1))
    by (rewrite inject_Z_plus; change (inject_Z 1) with 1; lra).
  assert (Hnm : inject_Z n < inject_Z (m + 1))
    by (rewrite inject_Z_plus; change (inject_Z 1) with 1; lra).
  rewrite <- Zlt_Qlt in Hmn, Hnm. lia.
Qed.

(** [Number(x.toFixed(8))] is a whole number of 1e-8 units, or [x] itself
    from 10^21 on. *)
Lemma toFixed8_shape (x : number) :
  (1e21 <= Qabs x /\ JS.toFixed8 x = x) \/
  exists n : Z,
    (0 <= n)%Z /\
    (JS.toFixed8 x = inject_Z n / 1e8 \/ JS.toFixed8 x = - (inject_Z n / 1e8)).
Proof.
  unfold JS.toFixed8. cbv zeta. case_cmp; [left; auto | right].
  exists (Qfloor (Qabs x * 1e8 + 0.5)). split.
  - rewrite <- (Qfloor_Z 0). apply Qfloor_resp_le.
    pose proof (Qabs_nonneg x). plain_consts. change (inject_Z 0) with 0. lra.
  - destruct (x <? 0); auto.
Qed.

Lemma toFixed8_units (n : Z) (y : number) :
  (0 <= n)%Z ->
  y == inject_Z n / 1e8 \/ y == - (inject_Z n / 1e8) ->
  JS.toFixed8 y == y.
Proof.
  intros Hn Hy. unfold JS.toFixed8. cbv zeta.
  case_cmp; [reflexivity |]. clear Hcmp.
  rewrite Zle_Qle in Hn. change (inject_Z 0) with 0 in Hn.
  pose proof (div_mul (inject_Z n) 1e8 ltac:(plain_consts; lra)) as HM.
  assert (Habs : Qabs y == inject_Z n / 1e8).
  { set (M := inject_Z n / 1e8) in *. plain_consts.
    destruct Hy as [Hy | Hy]; rewrite Hy.
    - apply Qabs_pos. lra.
    - rewrite Qabs_opp. apply Qabs_pos. lra. }
  assert (Hfloor : Qfloor (Qabs y * 1e8 + 0.5) = n).
  { transitivity (Qfloor (inject_Z n + 0.5)); [| apply Qfloor_half].
    apply Qfloor_comp. rewrite Habs, HM. reflexivity. }
  rewrite Hfloor.
  set (M := inject_Z n / 1e8) in *. plain_consts.
  case_cmp; destruct Hy as [Hy | Hy]; lra.
Qed.

Lemma toFixed8_idempotent (x : number) :
  JS.toFixed8 (JS.toFixed8 x) == JS.toFixed8 x.
Proof.
  destruct (toFixed8_shape x) as [[Hbig ->] | (n & Hn & Hy)].
  - unfold JS.toFixed8. cbv zeta.
    assert (G : (1e21 <=? Qabs x) = true) by (apply leb_true; exact Hbig).
    rewrite G. reflexivity.
  - apply (toFixed8_units n _ Hn).
    destruct Hy as [-> | ->]; [left | right]; reflexivity.
Qed.

(** The step [calcQuantity] rounds with is positive, and is the lot step
    when that is positive. *)
Lemma lotStepOf_pos (input : TradeInput) : 0 < lotStepOf input.
Proof. unfold lotStepOf. cbv zeta. case_cmp; lra. Qed.

Lemma qtyRaw_nonneg (input : TradeInput) (stop : number) :
  0 <= qtyRaw input stop.
Proof.
  unfold qtyRaw. cbv zeta.
  destruct (rp_mode (ti_riskProfile input)); try apply Math_max_0_nonneg.
  case_cmp; [apply Math_max_0_nonneg | lra].
Qed.

Lemma div_nonneg (x y : Q) : 0 <= x -> 0 < y -> 0 <= x / y.
Proof. intros Hx Hy. apply Qle_shift_div_l; [exact Hy | lra]. Qed.

(** With a positive step, [roundDownToStep] and [roundUpToStep] return
    [Number(m.toFixed(8))] for a non-negative multiple [m] of the step. *)
Lemma roundDownToStep_step (qty step : number) :
  0 <= qty -> 0 < step ->
  exists k : Z,
    (0 <= k)%Z /\ roundDownToStep qty step = JS.toFixed8 (inject_Z k * step).
Proof.
  intros Hqty Hstep. unfold roundDownToStep. cbv zeta.
  case_cmp; [lra |]. clear Hcmp. cbn [JS.Number_isFinite].
  unfold JS.Math_floor.
  set (k := Qfloor (qty / step + 1e-9)).
  assert (Hk : (0 <= k)%Z).
  { subst k. rewrite <- (Qfloor_Z 0). apply Qfloor_resp_le.
    pose proof (div_nonneg qty step Hqty Hstep).
    plain_consts. change (inject_Z 0) with 0. lra. }
  exists k. split; [exact Hk |].
  case_cmp; [| reflexivity].
  exfalso. rewrite Zle_Qle in Hk. change (inject_Z 0) with 0 in Hk.
  assert (0 <= JS.toFixed8 (inject_Z k * step))
    by (apply toFixed8_nonneg, Qmult_le_0_compat; lra).
  lra.
Qed.

Lemma roundUpToStep_step (qty step : number) :
  0 <= qty -> 0 < step ->
  exists k : Z,
    (0 <= k)%Z /\ roundUpToStep qty step = JS.toFixed8 (inject_Z k * step).
Proof.
  intros Hqty Hstep. unfold roundUpToStep. cbv zeta.
  case_cmp; [lra |]. clear Hcmp. cbn [JS.Number_isFinite].
  destruct (Math_ceil_bounds (qty / step - 1e-9)) as [Hlo _].
  unfold JS.Math_ceil in *.
  set (k := Qceiling (qty / step - 1e-9)) in *.
  assert (Hk : (0 <= k)%Z).
  { assert (Hlt : inject_Z (-1) < inject_Z k).
    { pose proof (div_nonneg qty step Hqty Hstep).
      plain_consts. change (inject_Z (-1)) with (-1 # 1). lra. }
    rewrite <- Zlt_Qlt in Hlt. lia. }
  exists k. split; [exact Hk |].
  case_cmp; [| reflexivity].
  exfalso. rewrite Zle_Qle in Hk. change (inject_Z 0) with 0 in Hk.
  assert (0 <= JS.toFixed8 (inject_Z k * step))
    by (apply toFixed8_nonneg, Qmult_le_0_compat; lra).
  lra.
Qed.

(** Re-rounding a step-rounded quantity changes nothing. *)
Lemma toFixed8_rounded (k : Z) (step q : number) :
  q = JS.toFixed8 (inject_Z k * step) -> JS.toFixed8 q == q.
Proof. intros ->. apply toFixed8_idempotent. Qed.

(** The threshold of [calcQuantity] is the one the specification words. *)
Lemma minLotAligned_spec (input : TradeInput) :
  minLotAligned input
  = specMinLotThreshold (ip_minLot (ti_instrument input))
      (specStep (ip_lotStep (ti_instrument input))).
Proof.
  unfold minLotAligned, specMinLotThreshold, specStep, lotStepOf. cbv zeta.
  destruct (0 <? ip_minLot (ti_instrument input)) eqn:Hmin; cbv iota;
    rewrite ?Hmin; reflexivity.
Qed.

Lemma specMinLotThreshold_cases (minLot step : number) :
  (minLot <= 0 /\ specMinLotThreshold minLot step = 0) \/
  (0 < minLot /\ minLot <= roundUpToStep minLot step /\
   specMinLotThreshold minLot step = roundUpToStep minLot step) \/
  (0 < minLot /\ roundUpToStep minLot step < minLot /\
   specMinLotThreshold minLot step = minLot).
Proof.
  unfold specMinLotThreshold. case_cmp; [right | left; auto].
  destruct (Math_max_cases (roundUpToStep minLot step) minLot)
    as [[Hlt ->] | [Hle ->]]; [right | left]; auto.
Qed.

(** ** The minimum-lot rule *)

(** C8, as amended.  With [step] the lot step when positive and 1
    otherwise, [rounded] the raw quantity rounded down by
    [roundDownToStep], and the threshold
    [max(roundUpToStep(minLot, step), minLot)] when [minLot > 0] and 0
    otherwise: the returned quantity is
    [Number(max(rounded, threshold).toFixed(8))] when the threshold is
    positive, which is [max(rounded, threshold)] itself unless that is a
    minimum lot above its own round-up, and is [rounded] when the threshold
    is not positive; [belowMinLot] holds iff the threshold is positive,
    [rounded] is strictly below it and the returned quantity is
    positive. *)
Theorem quantity_min_lot_rule (input : TradeInput) (r : TradeCalcResponse) :
  calculateTrade input = Ok r ->
  let minLot := ip_minLot (ti_instrument input) in
  let step := specStep (ip_lotStep (ti_instrument input)) in
  let rounded := roundDownToStep (qtyRaw input (tr_stop (result r))) step in
  let threshold := specMinLotThreshold minLot step in
  tr_quantity (result r) = JS.toFixed8 (specQuantity rounded threshold) /\
  (0 < threshold ->
   minLot <= roundUpToStep minLot step \/ minLot <= rounded ->
   tr_quantity (result r) == JS.Math_max rounded threshold) /\
  (threshold <= 0 -> tr_quantity (result r) == rounded) /\
  (tr_belowMinLot (result r) = true <->
   0 < threshold /\ rounded < threshold /\ 0 < tr_quantity (result r)).
Proof.
  intro H. returned_call H.
  cbn [result tr_quantity tr_stop tr_belowMinLot]. cbv zeta.
  set (stop := computeStop input) in *.
  change (specStep (ip_lotStep (ti_instrument input)))
    with (lotStepOf input).
  change (roundDownToStep (qtyRaw input stop) (lotStepOf input))
    with (roundedQty input stop).
  pose proof (minLotAligned_spec input) as Hthr.
  change (specStep (ip_lotStep (ti_instrument input)))
    with (lotStepOf input) in Hthr.
  rewrite <- Hthr.
  pose proof (lotStepOf_pos input) as Hpos.
  destruct (roundDownToStep_step (qtyRaw input stop) (lotStepOf input)
              (qtyRaw_nonneg input stop) Hpos) as (k & Hk & Hdown).
  fold (roundedQty input stop) in Hdown.
  pose proof (toFixed8_rounded k _ _ Hdown) as Hidem.
  destruct (calcQuantity_returns input stop sz Hsizing) as (_ & Hq & Hbelow).
  unfold specQuantity.
  split; [exact Hq |]. split; [| split].
  - intros Hthrpos Haligned. rewrite Hq.
    assert (G : (0 <? minLotAligned input) = true)
      by (apply ltb_true; exact Hthrpos).
    rewrite G.
    destruct (Math_max_cases (roundedQty input stop) (minLotAligned input))
      as [[Hlt ->] | [Hle ->]]; [| exact Hidem].
    rewrite Hthr in *.
    destruct (specMinLotThreshold_cases (ip_minLot (ti_instrument input))
                (lotStepOf input))
      as [[_ Hm] | [(Hmin & _ & Hm) | (_ & Hup & Hm)]]; rewrite Hm in *.
    + lra.
    + destruct (roundUpToStep_step (ip_minLot (ti_instrument input))
                  (lotStepOf input) ltac:(lra) Hpos) as (k' & _ & Hup).
      exact (toFixed8_rounded k' _ _ Hup).
    + exfalso. destruct Haligned; lra.
  - intros Hthrneg. rewrite Hq.
    assert (G : (0 <? minLotAligned input) = false)
      by (apply ltb_false; exact Hthrneg).
    rewrite G. exact Hidem.
  - rewrite Hbelow, !andb_true_iff, !ltb_true. tauto.
Qed.

Lemma quantity_min_lot_rule_witness :
  calculateTrade scenarioB = Ok responseB /\
  tr_belowMinLot (result responseB) = true /\
  tr_quantity (result responseB) == 25.
Proof.
  split; [reflexivity |].
  destruct (quantity_min_lot_rule scenarioB responseB eq_refl)
    as (Hq & _ & _ & Hbelow).
  split; [reflexivity |]. rewrite Hq. vm_compute. reflexivity.
Defined.

(** C8, as stated, fails.  Lot step 1 and minimum lot 1.0000000005 with no
    risk budget: the rounded raw quantity is 0 and the threshold is
    [max(1, 1.0000000005) = 1.0000000005], which is positive, but the
    returned quantity is 1, not [max(0, 1.0000000005)].  (With an exact
    round-up of the minimum lot to the step the threshold would be 2, and
    the quantity would still differ.) *)
Lemma quantity_not_max_of_threshold :
  let input := minLotAbove1 in
  let r := responseAbove1 in
  let minLot := ip_minLot (ti_instrument input) in
  let step := specStep (ip_lotStep (ti_instrument input)) in
  let rounded := roundDownToStep (qtyRaw input (tr_stop (result r))) step in
  let threshold := specMinLotThreshold minLot step in
  calculateTrade input = Ok r /\
  rounded == 0 /\ threshold == 1.0000000005 /\ 0 < threshold /\
  tr_quantity (result r) == 1 /\
  ~ tr_quantity (result r) == specQuantity rounded threshold /\
  ~ tr_quantity (result r)
    == JS.Math_max rounded
         (JS.Math_max (JS.Math_ceil (minLot / step) * step) minLot).
Proof.
  cbv zeta. split; [reflexivity |].
  repeat split; try (vm_compute; reflexivity); vm_compute; discriminate.
Qed.

(** * Further properties of the calculation core *)

(** ** Rounding to eight decimals keeps the order *)

Lemma fixed_units_le (a b : Q) :
  a <= b ->
  inject_Z (Qfloor (a * 1e8 + 0.5)) / 1e8
  <= inject_Z (Qfloor (b * 1e8 + 0.5)) / 1e8.
Proof.
  intro Hab.
  assert (Hz : (Qfloor (a * 1e8 + 0.5) <= Qfloor (b * 1e8 + 0.5))%Z)
    by (apply Qfloor_resp_le; plain_consts; lra).
  rewrite Zle_Qle in Hz.
  pose proof (div_mul (inject_Z (Qfloor (a * 1e8 + 0.5))) 1e8
                ltac:(plain_consts; lra)) as Ha.
  pose proof (div_mul (inject_Z (Qfloor (b * 1e8 + 0.5))) 1e8
                ltac:(plain_consts; lra)) as Hb.
  set (A := inject_Z (Qfloor (a * 1e8 + 0.5)) / 1e8) in *.
  set (B := inject_Z (Qfloor (b * 1e8 + 0.5)) / 1e8) in *.
  plain_consts. lra.
Qed.

Lemma fixed_units_range (a : Q) :
  0 <= a -> a < 1e21 ->
  0 <= inject_Z (Qfloor (a * 1e8 + 0.5)) / 1e8 /\
  inject_Z (Qfloor (a * 1e8 + 0.5)) / 1e8 <= 1e21.
Proof.
  intros Hlo Hhi.
  destruct (Math_floor_bounds (a * 1e8 + 0.5)) as [Hfl _].
  unfold JS.Math_floor in Hfl.
  assert (H0 : (0 <= Qfloor (a * 1e8 + 0.5))%Z).
  { rewrite <- (Qfloor_Z 0). apply Qfloor_resp_le.
    plain_consts. change (inject_Z 0) with 0. lra. }
  assert (H1 : (Qfloor (a * 1e8 + 0.5) < 100000000000000000000000000000 + 1)%Z).
  { rewrite Zlt_Qlt.
    change (inject_Z (100000000000000000000000000000 + 1))
      with (100000000000000000000000000001 # 1).
    plain_consts. lra. }
  assert (H2 : (Qfloor (a * 1e8 + 0.5) <= 100000000000000000000000000000)%Z)
    by lia.
  rewrite Zle_Qle in H0, H2.
  change (inject_Z 0) with 0 in H0.
  change (inject_Z 100000000000000000000000000000)
    with (100000000000000000000000000000 # 1) in H2.
  pose proof (div_mul (inject_Z (Qfloor (a * 1e8 + 0.5))) 1e8
                ltac:(plain_consts; lra)) as Ha.
  set (A := inject_Z (Qfloor (a * 1e8 + 0.5)) / 1e8) in *.
  plain_consts. split; lra.
Qed.

(** The three shapes of [Number(x.toFixed(8))]. *)
Lemma toFixed8_cases (x : number) :
  (1e21 <= Qabs x /\ JS.toFixed8 x = x) \/
  (0 <= x /\ x < 1e21 /\
   JS.toFixed8 x = inject_Z (Qfloor (x * 1e8 + 0.5)) / 1e8) \/
  (x < 0 /\ - x < 1e21 /\
   JS.toFixed8 x == - (inject_Z (Qfloor (- x * 1e8 + 0.5)) / 1e8)).
Proof.
  unfold JS.toFixed8. cbv zeta. case_cmp; [left; auto | right].
  case_cmp.
  - right. rewrite (Qabs_neg x) in Hcmp by lra.
    split; [exact Hcmp0 |]. split; [exact Hcmp |].
    assert (E : Qfloor (Qabs x * 1e8 + 0.5) = Qfloor (- x * 1e8 + 0.5)).
    { apply Qfloor_comp. rewrite (Qabs_neg x) by lra. reflexivity. }
    rewrite E. reflexivity.
  - left. rewrite (Qabs_pos x) in Hcmp by lra.
    split; [exact Hcmp0 |]. split; [exact Hcmp |].
    assert (E : Qfloor (Qabs x * 1e8 + 0.5) = Qfloor (x * 1e8 + 0.5)).
    { apply Qfloor_comp. rewrite (Qabs_pos x) by lra. reflexivity. }
    rewrite E. reflexivity.
Qed.

Lemma toFixed8_monotone (x y : number) :
  x <= y -> JS.toFixed8 x <= JS.toFixed8 y.
Proof.
  intro Hxy.
  destruct (toFixed8_cases x) as [[Hx ->] | [(Hx0 & Hx1 & ->) | (Hx0 & Hx1 & Ex)]];
  destruct (toFixed8_cases y) as [[Hy ->] | [(Hy0 & Hy1 & ->) | (Hy0 & Hy1 & Ey)]];
    rewrite ?Ex, ?Ey.
  - exact Hxy.
  - destruct (fixed_units_range y Hy0 Hy1) as [Hr0 Hr1].
    revert Hx. apply Qabs_case; intros; plain_consts; lra.
  - destruct (fixed_units_range (- y) ltac:(lra) Hy1) as [Hr0 Hr1].
    revert Hx. apply Qabs_case; intros; plain_consts; lra.
  - destruct (fixed_units_range x Hx0 Hx1) as [Hr0 Hr1].
    revert Hy. apply Qabs_case; intros; plain_consts; lra.
  - apply fixed_units_le. exact Hxy.
  - lra.
  - destruct (fixed_units_range (- x) ltac:(lra) Hx1) as [Hr0 Hr1].
    revert Hy. apply Qabs_case; intros; plain_consts; lra.
  - destruct (fixed_units_range (- x) ltac:(lra) Hx1) as [Hr0 Hr1].
    destruct (fixed_units_range y Hy0 Hy1) as [Hs0 Hs1]. lra.
  - pose proof (fixed_units_le (- y) (- x) ltac:(lra)). lra.
Qed.

#[local] Instance toFixed8_Proper : Proper (Qeq ==> Qeq) JS.toFixed8.
Proof.
  intros x y Hxy. apply Qle_antisym; apply toFixed8_monotone; rewrite Hxy;
    apply Qle_refl.
Qed.

(** ** The step-rounded quantity *)

Lemma roundedQty_fixed (input : TradeInput) (stop : number) :
  JS.toFixed8 (roundedQty input stop) == roundedQty input stop.
Proof.
  destruct (roundDownToStep_step (qtyRaw input stop) (lotStepOf input)
              (qtyRaw_nonneg input stop) (lotStepOf_pos input))
    as (k & _ & Hdown).
  exact (toFixed8_rounded k _ _ Hdown).
Qed.

(** Unless the minimum lot raised it, the quantity is the step-rounded raw
    quantity (or zero). *)
Lemma quantity_unforced (input : TradeInput) (stop : number) (sz : Sizing) :
  calcQuantity input stop = Ok sz ->
  sz_belowMinLot sz = false ->
  sz_quantity sz <= roundedQty input stop.
Proof.
  intros H Hbelow.
  pose proof (quantity_nonneg _ _ _ H) as Hnonneg.
  destruct (calcQuantity_returns _ _ _ H) as (_ & Hq & Hb).
  rewrite Hb in Hbelow. clear Hb.
  pose proof (roundedQty_fixed input stop) as Hfixed.
  pose proof (roundDownToStep_nonneg (qtyRaw input stop) (lotStepOf input))
    as Hrounded.
  fold (roundedQty input stop) in Hrounded.
  destruct (0 <? minLotAligned input) eqn:Gthr.
  - cbn [andb] in Hbelow.
    destruct (roundedQty input stop <? minLotAligned input) eqn:Glt;
      cbn [andb] in Hbelow; reflect_cmp; [lra |].
    rewrite Hq.
    destruct (Math_max_cases (roundedQty input stop) (minLotAligned input))
      as [[Hlt _] | [_ ->]]; [lra |].
    rewrite Hfixed. apply Qle_refl.
  - rewrite Hq, Hfixed. apply Qle_refl.
Qed.

(** ** Flags and warnings agree *)

(** X8.  In a returned response [hasFourStops] is false exactly when one of
    the two ratio warnings is present, and the list of warnings is empty
    exactly when [hasFourStops] and [stopWithinAtrFilter] are true and
    [belowMinLot] is false. *)
Theorem warnings_match_flags (input : TradeInput) (r : TradeCalcResponse) :
  calculateTrade input = Ok r ->
  let t := result r in
  (tr_hasFourStops t = false <->
   In "ATR/Stop < 4" (tr_warnings t) \/ In "Range/Stop < 4" (tr_warnings t)) /\
  (tr_warnings t = [] <->
   tr_hasFourStops t = true /\ tr_stopWithinAtrFilter t = true /\
   tr_belowMinLot t = false).
Proof.
  intro H. returned_call H.
  cbn [result tr_hasFourStops tr_warnings tr_stopWithinAtrFilter
       tr_belowMinLot].
  rewrite collectWarnings_keep.
  cbn [wi_atrCheckFailed wi_rangeCheckFailed wi_stopFilterFailed
       wi_belowMinLot].
  set (atrFailed := ti_atr input / computeStop input <? 4).
  set (within := negb (JS.truthy (ti_enableAtrFilter input))
                 || (computeStop input <=? 0.2 * ti_atr input)).
  set (below := sz_belowMinLot sz).
  rewrite !in_app_iff, !In_keep.
  destruct (ti_rangePassed input) as [rangePassed |]; cbn [JS.truthy].
  - set (rangeFailed := rangePassed / computeStop input <? 4).
    destruct atrFailed, rangeFailed, within, below; cbn;
      (split; [split | split]); intros;
      repeat match goal with
        | H : _ /\ _ |- _ => destruct H
        | H : _ \/ _ |- _ => destruct H
        end;
      try discriminate; try reflexivity; auto 10.
  - destruct atrFailed, within, below; cbn;
      (split; [split | split]); intros;
      repeat match goal with
        | H : _ /\ _ |- _ => destruct H
        | H : _ \/ _ |- _ => destruct H
        end;
      try discriminate; try reflexivity; auto 10.
Qed.

Lemma warnings_match_flags_witness :
  calculateTrade scenarioC = Ok responseC /\
  (tr_hasFourStops (result responseC) = false <->
   In "ATR/Stop < 4" (tr_warnings (result responseC)) \/
   In "Range/Stop < 4" (tr_warnings (result responseC))).
Proof.
  split; [reflexivity |].
  exact (proj1 (warnings_match_flags scenarioC responseC eq_refl)).
Defined.

(** ** The minimum-lot flag *)

(** X21.  [belowMinLot] is raised whenever the returned quantity is above
    the step-rounded raw quantity: a position is never enlarged without the
    flag.  When the flag is raised the quantity is positive, is the
    minimum-lot threshold rounded to eight decimals, is not below the
    step-rounded raw quantity, and the warning 'Qty is below minimum lot'
    is issued. *)
Theorem belowMinLot_flags_every_raise (input : TradeInput)
  (r : TradeCalcResponse) :
  calculateTrade input = Ok r ->
  let t := result r in
  let rounded := roundedQty input (tr_stop t) in
  (rounded < tr_quantity t -> tr_belowMinLot t = true) /\
  (tr_belowMinLot t = true ->
   0 < tr_quantity t /\ rounded <= tr_quantity t /\
   tr_quantity t = JS.toFixed8 (minLotAligned input) /\
   In "Qty is below minimum lot" (tr_warnings t)).
Proof.
  intro H. returned_call H.
  cbn [result tr_quantity tr_belowMinLot tr_stop tr_warnings]. cbv zeta.
  set (stop := computeStop input) in *.
  split.
  - intro Hraised.
    destruct (sz_belowMinLot sz) eqn:Hbelow; [reflexivity |].
    pose proof (quantity_unforced _ _ _ Hsizing Hbelow). lra.
  - intro Hbelow.
    destruct (calcQuantity_returns _ _ _ Hsizing) as (_ & Hq & Hb).
    rewrite Hbelow in Hb. symmetry in Hb.
    apply andb_true_iff in Hb. destruct Hb as [Hb Hpos].
    apply andb_true_iff in Hb. destruct Hb as [Hthr Hlt].
    rewrite Hthr in Hq. reflect_cmp.
    destruct (Math_max_cases (roundedQty input stop) (minLotAligned input))
      as [[_ Hmax] | [Hle _]]; [| lra].
    rewrite Hmax in Hq.
    split; [exact Hpos |]. split; [| split; [exact Hq |]].
    + rewrite Hq, <- (roundedQty_fixed input stop).
      apply toFixed8_monotone. lra.
    + rewrite collectWarnings_keep. cbn [wi_belowMinLot].
      rewrite !in_app_iff. right; right; right. apply In_keep. auto.
Qed.

Lemma belowMinLot_flags_every_raise_witness :
  calculateTrade scenarioB = Ok responseB /\
  tr_belowMinLot (result responseB) = true /\
  0 < tr_quantity (result responseB).
Proof.
  split; [reflexivity |]. split; [reflexivity |].
  exact (proj1 (proj2 (belowMinLot_flags_every_raise scenarioB responseB
                         eq_refl) eq_refl)).
Defined.

(** * Properties of the popup *)

(** ** Reading the validation *)

Lemma isPositive_true (value : option number) :
  isPositive value = true <-> exists v, value = Some v /\ 0 < v.
Proof.
  destruct value as [v |]; cbn.
  - rewrite ltb_true. split; [eauto | intros (w & [= <-] & Hw); exact Hw].
  - split; [discriminate | intros (w & Hw & _); discriminate Hw].
Qed.

(** ** Rows of a form with a fatal error *)

Lemma firstTruthyError_found (errors : FormErrors) (order : list FatalKey)
  (error : string) :
  firstTruthyError errors order = Some error ->
  truthyText (Some error) = true /\
  exists key, In key order /\ errorAt errors key = Some error.
Proof.
  induction order as [| key rest IH]; cbn [firstTruthyError];
    [discriminate |].
  destruct (truthyText (errorAt errors key)) eqn:Htruthy.
  - intro H. rewrite H in Htruthy. split; [exact Htruthy |].
    exists key. split; [left; reflexivity | exact H].
  - intro H. destruct (IH H) as (Ht & key' & Hin & Hat).
    split; [exact Ht |]. exists key'. split; [right; exact Hin | exact Hat].
Qed.

Lemma errorIf_Some (cond : bool) (message error : string) :
  errorIf cond message = Some error -> error = message.
Proof. destruct cond; cbn; [intros [= <-]; reflexivity | discriminate]. Qed.

(** X12.  When the freshly validated form has a fatal error, every row that
    [recompute] builds shows that one error, which is one of the eleven
    fatal messages of [validateState], and no row carries a response. *)
Theorem fatal_error_on_every_row (state : FormState) (error : string)
  (row : ResultRow) :
  firstFatalError (validateState state) = Some error ->
  In row (snd (recompute state)) ->
  row_error row = Some error /\ row_response row = None /\
  In error fatalMessages.
Proof.
  intros Hfatal Hrow.
  destruct (firstTruthyError_found _ _ _ Hfatal) as (Htruthy & key & _ & Hat).
  assert (Hmsg : In error fatalMessages).
  { unfold fatalMessages.
    destruct key; cbn in Hat; apply errorIf_Some in Hat; subst error;
      cbn; tauto. }
  unfold recompute, buildResultRows in Hrow. cbn [snd] in Hrow.
  destruct (Nat.eqb _ 0); [destruct Hrow |].
  apply in_flat_map in Hrow. destruct Hrow as (setup & _ & Hrow).
  apply in_map_iff in Hrow. destruct Hrow as (stopType & <- & _).
  unfold computeRow. cbv zeta. rewrite Hfatal, Htruthy. cbn. auto.
Qed.

Lemma fatal_error_on_every_row_witness :
  row_error (computeRow (validateState stateWithoutLevel) stateWithoutLevel
               Breakout AtrMultiple)
  = Some "Level must be greater than zero".
Proof.
  refine (proj1 (fatal_error_on_every_row stateWithoutLevel
                   "Level must be greater than zero" _ eq_refl _)).
  right; left; reflexivity.
Defined.

(** ** The grid of rows *)

Lemma computeRow_tags (formErrors : FormErrors) (state : FormState)
  (setup : SetupType) (stopType : StopType) :
  let row := computeRow formErrors state setup stopType in
  row_id row = rowId setup stopType /\ row_setup row = setup /\
  row_stopType row = stopType /\
  ((exists error, row_error row = Some error /\ row_response row = None) \/
   (row_error row = None /\ exists response, row_response row = Some response)).
Proof.
  unfold computeRow. cbv zeta.
  repeat match goal with
    | |- context [if ?c then _ else _] => destruct c
    end;
    try (cbn; repeat split; left; eauto).
  destruct (fs_level state), (fs_atr state), (fs_rrMultiple state);
    try (cbn; repeat split; left; eauto).
  destruct (calculateTrade _); cbn; repeat split; [right | left]; eauto.
Qed.

(** X13.  For any form errors, [buildResultRows] returns three rows per
    enabled setup, in the order of [setupOrder] and, within a setup, of
    [stopTypes]; there is none when no setup is enabled.  Each row is
    tagged with its setup and stop type, has the id
    [`${setup}_${stopType}`], no two rows share an id, and each row has
    either an error or a response, never both and never neither. *)
Theorem result_rows_grid (formErrors : FormErrors) (state : FormState) :
  let rows := buildResultRows formErrors state in
  List.length rows = (3 * enabledSetups state)%nat /\
  map (fun row => (row_setup row, row_stopType row)) rows
  = list_prod
      (filter (fun setup => setupEnabled (fs_setups state) setup) setupOrder)
      stopTypes /\
  NoDup (map row_id rows) /\
  (forall row, In row rows ->
     row_id row = rowId (row_setup row) (row_stopType row) /\
     ((exists error, row_error row = Some error /\ row_response row = None) \/
      (row_error row = None /\
       exists response, row_response row = Some response))).
Proof.
  cbv zeta.
  assert (Htag : forall setup stopType,
    row_id (computeRow formErrors state setup stopType)
    = rowId setup stopType /\
    row_setup (computeRow formErrors state setup stopType) = setup /\
    row_stopType (computeRow formErrors state setup stopType) = stopType).
  { intros setup stopType.
    destruct (computeRow_tags formErrors state setup stopType)
      as (H1 & H2 & H3 & _). auto. }
  split; [| split; [| split]].
  - unfold buildResultRows, enabledSetups, setupOrder, stopTypes.
    cbn [filter]. destruct (setupEnabled (fs_setups state) Breakout),
      (setupEnabled (fs_setups state) FalseBreakout); reflexivity.
  - unfold buildResultRows, setupOrder, stopTypes.
    cbn [filter]. destruct (setupEnabled (fs_setups state) Breakout),
      (setupEnabled (fs_setups state) FalseBreakout);
      cbn [List.length Nat.eqb flat_map map app list_prod];
      repeat match goal with
        | |- context [computeRow formErrors state ?a ?b] =>
            let H := fresh in
            destruct (Htag a b) as (_ & H & ?);
            rewrite H; clear H;
            match goal with E : row_stopType _ = _ |- _ => rewrite E; clear E end
        end; reflexivity.
  - unfold buildResultRows, setupOrder, stopTypes.
    cbn [filter]. destruct (setupEnabled (fs_setups state) Breakout),
      (setupEnabled (fs_setups state) FalseBreakout);
      cbn [List.length Nat.eqb flat_map map app];
      repeat match goal with
        | |- context [row_id (computeRow formErrors state ?a ?b)] =>
            rewrite (proj1 (Htag a b))
        end;
      repeat constructor; cbn; intuition discriminate.
  - intros row Hrow. unfold buildResultRows in Hrow.
    destruct (Nat.eqb _ 0); [destruct Hrow |].
    apply in_flat_map in Hrow. destruct Hrow as (setup & _ & Hrow).
    apply in_map_iff in Hrow. destruct Hrow as (stopType & <- & _).
    destruct (computeRow_tags formErrors state setup stopType)
      as (Hid & Hsetup & Hstop & Hone).
    rewrite Hsetup, Hstop. auto.
Qed.

Lemma result_rows_grid_witness :
  List.length (buildResultRows (validateState DEFAULT_STATE) DEFAULT_STATE)
  = 6%nat /\
  row_id (computeRow (validateState DEFAULT_STATE) DEFAULT_STATE
            FalseBreakout FixedPoints) = "false_breakout_fixed_points".
Proof.
  destruct (result_rows_grid (validateState DEFAULT_STATE) DEFAULT_STATE)
    as (Hlen & _ & _ & Hrows).
  split; [exact Hlen |].
  apply (Hrows (computeRow (validateState DEFAULT_STATE) DEFAULT_STATE
                  FalseBreakout FixedPoints)).
  do 5 right. left. reflexivity.
Defined.

(** ** The risk check of a row *)

(** X14.  [validateRiskForMode] returns the first risk error that
    [validateState] records for the same form, in the order riskCash,
    riskPercent, accountSize, notional, and nothing when there is none. *)
Theorem validateRiskForMode_first_risk_error (state : FormState) :
  validateRiskForMode (fs_risk state)
  = firstTruthyError (validateState state)
      [K_riskCash; K_riskPercent; K_accountSize; K_notional].
Proof.
  unfold validateRiskForMode.
  cbn [firstTruthyError errorAt validateState fe_riskCash fe_riskPercent
       fe_accountSize fe_notional].
  destruct (rs_mode (fs_risk state)); cbn;
    repeat match goal with
      | |- context [isPositive ?v] => destruct (isPositive v); cbn
      end;
    reflexivity.
Qed.

(** ** CSV fields *)

Lemma readQuoted_doubleQuotes (value : string) :
  readQuoted (doubleQuotes value ++ String quoteChar EmptyString) = value.
Proof.
  induction value as [| head rest IH]; [reflexivity |].
  cbn [doubleQuotes]. destruct (Ascii.eqb head quoteChar) eqn:Hq.
  - apply Ascii.eqb_eq in Hq. rewrite Hq.
    cbn [append readQuoted]. rewrite Ascii.eqb_refl, IH. reflexivity.
  - cbn [append readQuoted]. rewrite Hq, IH. reflexivity.
Qed.

Lemma csvRead_csvEscape (value : string) : csvRead (csvEscape value) = value.
Proof.
  unfold csvEscape.
  destruct (includesChar commaChar value || includesChar quoteChar value)
    eqn:Hspecial.
  - cbn. apply readQuoted_doubleQuotes.
  - apply orb_false_iff in Hspecial. destruct Hspecial as [_ Hquote].
    destruct value as [| head rest]; [reflexivity |].
    cbn in Hquote. apply orb_false_iff in Hquote. destruct Hquote as [Hhead _].
    cbn. rewrite Hhead. reflexivity.
Qed.

(** X15.  [csvEscape] leaves a value without comma and quote unchanged,
    wraps any other value in quotes with every inner quote doubled, and
    never maps two different values to the same field. *)
Theorem csvEscape_faithful (value : string) :
  (includesChar commaChar value = false ->
   includesChar quoteChar value = false -> csvEscape value = value) /\
  (includesChar commaChar value = true \/ includesChar quoteChar value = true ->
   csvEscape value
   = String quoteChar (doubleQuotes value ++ String quoteChar EmptyString)) /\
  (forall other, csvEscape value = csvEscape other -> value = other).
Proof.
  split; [| split].
  - intros Hcomma Hquote. unfold csvEscape. rewrite Hcomma, Hquote. reflexivity.
  - intros Hspecial. unfold csvEscape.
    assert (G : includesChar commaChar value || includesChar quoteChar value
                = true)
      by (apply orb_true_iff; exact Hspecial).
    rewrite G. reflexivity.
  - intros other Hsame.
    rewrite <- (csvRead_csvEscape value), <- (csvRead_csvEscape other), Hsame.
    reflexivity.
Qed.

Lemma csvEscape_faithful_witness :
  csvEscape "Fixed %" = "Fixed %" /\
  csvEscape "1,234.50"
  = String quoteChar ("1,234.50" ++ String quoteChar EmptyString).
Proof.
  split.
  - apply (proj1 (csvEscape_faithful "Fixed %")); reflexivity.
  - apply (proj1 (proj2 (csvEscape_faithful "1,234.50"))). left. reflexivity.
Defined.

(** ** Restoring the stored form *)

Lemma normalizeNullable_present (value fallback : option number) :
  value <> None -> normalizeNullable value fallback = value.
Proof. destruct value; [reflexivity | congruence]. Qed.

Lemma normalizeNullable_filled (value fallback : option number) :
  fallback <> None -> normalizeNullable value fallback <> None.
Proof. destruct value; cbn; [discriminate | auto]. Qed.

Lemma normalizeNullable_None (value : option number) :
  normalizeNullable value None = value.
Proof. destruct value; reflexivity. Qed.

Lemma mergeFormState_filled (incoming : StoredForm) :
  Forall (fun field => field <> None)
    (defaultedFields (mergeFormState incoming)).
Proof.
  unfold defaultedFields, mergeFormState.
  cbn [fs_level fs_atr fs_rrMultiple fs_bufferRatio fs_stopSettings fs_risk
       fs_instrument ss_percent ss_atrMultiple ss_points rs_riskCash
       rs_riskPercent rs_accountSize rs_notional is_contractMultiplier
       is_lotStep is_minLot is_feePerUnit is_priceTick].
  repeat constructor; apply normalizeNullable_filled; discriminate.
Qed.

Lemma mergeFormState_storedForm (state : FormState) :
  Forall (fun field => field <> None) (defaultedFields state) ->
  mergeFormState (storedForm state) = state.
Proof.
  intro Hfilled. unfold defaultedFields in Hfilled.
  repeat match type of Hfilled with
    | Forall _ (_ :: _) =>
        apply Forall_cons_iff in Hfilled;
        let H := fresh "Hfield" in destruct Hfilled as [H Hfilled]
    end.
  unfold mergeFormState, storedForm.
  cbn [sf_direction sf_setups sf_level sf_atr sf_rrMultiple sf_bufferRatio
       sf_rangePassed sf_currentPrice sf_enableAtrFilter sf_stopSettings
       sf_risk sf_instrument optChain JS.nullish sto_breakout
       sto_false_breakout sr_mode sr_riskCash sr_riskPercent sr_accountSize
       sr_notional si_symbol si_contractMultiplier si_lotStep si_minLot
       si_feePerUnit si_priceTick].
  rewrite !normalizeNullable_None.
  rewrite !normalizeNullable_present by assumption.
  destruct state as [direction [breakout falseBreakout] level atr rr buffer
                       range price filter [percent atrMultiple points]
                       [mode cash pct account notional]
                       [symbol cm lot minLot fee tick]].
  reflexivity.
Qed.

Lemma normalizeNullable_kept (value fallback : option number) :
  keptOrDefaulted value fallback (normalizeNullable value fallback).
Proof. destruct value; reflexivity. Qed.

(** X16.  Whatever the storage hands back, the merged form has a value in
    every numeric field that has a default: each of the sixteen fields
    holds the stored number when the entry is present, and the default when
    the entry is missing or [null].  The two fields without a default,
    [rangePassed] and [currentPrice], are taken over as they are.  Storing
    the merged form and merging it again changes nothing. *)
Theorem merged_form_complete (incoming : StoredForm) :
  let merged := mergeFormState incoming in
  Forall (fun field => field <> None) (defaultedFields merged) /\
  Forall2 (fun entry field => keptOrDefaulted (fst entry) (snd entry) field)
    (combine (storedFields incoming) (defaultedFields DEFAULT_STATE))
    (defaultedFields merged) /\
  fs_rangePassed merged = sf_rangePassed incoming /\
  fs_currentPrice merged = sf_currentPrice incoming /\
  mergeFormState (storedForm merged) = merged.
Proof.
  cbv zeta. split; [| split; [| split; [| split]]].
  - apply mergeFormState_filled.
  - unfold storedFields, defaultedFields, mergeFormState.
    cbn [combine fs_level fs_atr fs_rrMultiple fs_bufferRatio fs_stopSettings
         fs_risk fs_instrument ss_percent ss_atrMultiple ss_points
         rs_riskCash rs_riskPercent rs_accountSize rs_notional
         is_contractMultiplier is_lotStep is_minLot is_feePerUnit
         is_priceTick].
    repeat constructor; cbn [fst snd]; apply normalizeNullable_kept.
  - cbn. apply normalizeNullable_None.
  - cbn. apply normalizeNullable_None.
  - apply mergeFormState_storedForm, mergeFormState_filled.
Qed.

(** A stored ATR of 5 is kept. *)
Lemma merged_form_complete_witness :
  fs_atr (mergeFormState storedAtr) = Some 5.
Proof.
  pose proof (proj1 (proj2 (merged_form_complete storedAtr))) as Hfields.
  cbv zeta in Hfields. unfold storedFields, defaultedFields in Hfields.
  cbn [combine] in Hfields.
  inversion Hfields as [| entry field entries fields _ Hrest]; subst.
  inversion Hrest as [| entry field entries fields Hatr _].
  exact Hatr.
Defined.

(** X17.  A form state in which every defaulted numeric field has a value
    survives the round trip through the storage: merging its stored image
    gives the state back. *)
Theorem stored_form_round_trip (state : FormState) :
  Forall (fun field => field <> None) (defaultedFields state) ->
  mergeFormState (storedForm state) = state.
Proof. exact (mergeFormState_storedForm state). Qed.

Lemma stored_form_round_trip_witness :
  mergeFormState (storedForm DEFAULT_STATE) = DEFAULT_STATE.
Proof.
  apply (stored_form_round_trip DEFAULT_STATE).
  unfold defaultedFields. repeat constructor; discriminate.
Defined.

(** ** The warnings panel *)

Lemma setAdd_In (set : list string) (value line : string) :
  In line (setAdd set value) <-> In line set \/ line = value.
Proof.
  unfold setAdd. destruct (existsb (String.eqb value) set) eqn:Hin.
  - apply existsb_exists in Hin. destruct Hin as (x & Hx & Heq).
    apply String.eqb_eq in Heq. subst x.
    split; [auto | intros [H | ->]; assumption].
  - rewrite in_app_iff. cbn. intuition.
Qed.

Lemma setAdd_NoDup (set : list string) (value : string) :
  NoDup set -> NoDup (setAdd set value).
Proof.
  intro Hset. unfold setAdd.
  destruct (existsb (String.eqb value) set) eqn:Hin; [exact Hset |].
  apply NoDup_app; [exact Hset | repeat constructor; intros [] |].
  intros x Hx [Heq | []]. subst x.
  assert (Hex : existsb (String.eqb value) set = true).
  { apply existsb_exists. exists value.
    split; [exact Hx | apply String.eqb_refl]. }
  congruence.
Qed.

Lemma fold_setAdd (label : string -> string) (texts : list string) :
  forall set line,
    (In line (fold_left (fun set text => setAdd set (label text)) texts set)
     <-> In line set \/ exists text, In text texts /\ line = label text) /\
    (NoDup set ->
     NoDup (fold_left (fun set text => setAdd set (label text)) texts set)).
Proof.
  induction texts as [| text rest IH]; intros set line; cbn [fold_left].
  - split; [| auto]. split; [auto | intros [H | (t & [] & _)]; exact H].
  - destruct (IH (setAdd set (label text)) line) as [Hin Hnodup].
    split.
    + rewrite Hin, setAdd_In. split.
      * intros [[H | ->] | (t & Ht & ->)]; [auto | right | right].
        -- exists text. split; [left; reflexivity | reflexivity].
        -- exists t. split; [right; exact Ht | reflexivity].
      * intros [H | (t & [<- | Ht] & ->)]; [auto | auto |].
        right. exists t. auto.
    + intro Hset. apply Hnodup, setAdd_NoDup, Hset.
Qed.

Lemma addRowWarnings_spec (warnings : list string) (row : ResultRow)
  (line : string) :
  (In line (addRowWarnings warnings row)
   <-> In line warnings \/ rowLine row line) /\
  (NoDup warnings -> NoDup (addRowWarnings warnings row)).
Proof.
  unfold addRowWarnings, rowLine. cbv zeta.
  set (first :=
    if truthyText (row_error row)
    then setAdd warnings (warningLine row (row_error row ?? EmptyString))
    else warnings).
  assert (Hfirst :
    (In line first <->
     In line warnings \/
     (truthyText (row_error row) = true /\
      line = warningLine row (row_error row ?? EmptyString))) /\
    (NoDup warnings -> NoDup first)).
  { subst first. destruct (truthyText (row_error row)).
    - rewrite setAdd_In. split; [| apply setAdd_NoDup].
      split; [intros [H | H]; auto | intros [H | [_ H]]; auto].
    - split; [| auto].
      split; [auto | intros [H | [H _]]; [exact H | discriminate H]]. }
  destruct Hfirst as [Hin Hnodup].
  destruct (row_response row) as [response |].
  - destruct (fold_setAdd (warningLine row) (tr_warnings (result response))
                first line) as [Hfold Hfoldnd].
    destruct (tr_belowMinLot (result response)) eqn:Hbelow.
    + rewrite setAdd_In, Hfold, Hin. split.
      * split.
        -- intros [[[H | H] | (w & Hw & ->)] | ->].
           ++ auto.
           ++ auto.
           ++ right; right. exists response. split; [reflexivity |].
              left. exists w. auto.
           ++ right; right. exists response. split; [reflexivity |].
              right. auto.
        -- intros [H | [H | (resp & Hresp & Hrest)]].
           ++ auto.
           ++ auto.
           ++ injection Hresp as <-.
              destruct Hrest as [(w & Hw & ->) | [_ ->]].
              ** left. right. exists w. auto.
              ** right. reflexivity.
      * intro H. apply setAdd_NoDup, Hfoldnd, Hnodup, H.
    + rewrite Hfold, Hin. split.
      * split.
        -- intros [[H | H] | (w & Hw & ->)].
           ++ auto.
           ++ auto.
           ++ right; right. exists response. split; [reflexivity |].
              left. exists w. auto.
        -- intros [H | [H | (resp & Hresp & Hrest)]].
           ++ auto.
           ++ auto.
           ++ injection Hresp as <-.
              destruct Hrest as [(w & Hw & ->) | [Hb _]]; [| congruence].
              right. exists w. auto.
      * intro H. apply Hfoldnd, Hnodup, H.
  - rewrite Hin. split; [| exact Hnodup].
    split; [intros [H | H]; auto |].
    intros [H | [H | (resp & Hresp & _)]]; [auto | auto | discriminate Hresp].
Qed.

Lemma fold_addRowWarnings (rows : list ResultRow) :
  forall warnings line,
    (In line (fold_left addRowWarnings rows warnings)
     <-> In line warnings \/ exists row, In row rows /\ rowLine row line) /\
    (NoDup warnings -> NoDup (fold_left addRowWarnings rows warnings)).
Proof.
  induction rows as [| row rest IH]; intros warnings line; cbn [fold_left].
  - split; [| auto]. split; [auto | intros [H | (r & [] & _)]; exact H].
  - destruct (IH (addRowWarnings warnings row) line) as [Hin Hnodup].
    destruct (addRowWarnings_spec warnings row line) as [Hrow Hrownd].
    split.
    + rewrite Hin, Hrow. split.
      * intros [[H | H] | (r & Hr & Hline)]; [auto | right | right].
        -- exists row. split; [left; reflexivity | exact H].
        -- exists r. split; [right; exact Hr | exact Hline].
      * intros [H | (r & [<- | Hr] & Hline)]; [auto | auto |].
        right. exists r. auto.
    + intro H. apply Hnodup, Hrownd, H.
Qed.

(** X18.  The set of lines [renderWarnings] shows has no duplicates and
    holds exactly the labelled errors and warnings of the rows, plus the
    note about the minimum lot when some response has [belowMinLot]; it is
    empty ('No warnings.') exactly when no row has an error and every
    response is free of warnings and of [belowMinLot]. *)
Theorem warnings_panel (rows : list ResultRow) :
  NoDup (warningSet rows) /\
  (forall line,
     In line (warningSet rows) <-> exists row, In row rows /\ rowLine row line) /\
  (warningSet rows = [] <->
   forall row, In row rows ->
     truthyText (row_error row) = false /\
     forall response, row_response row = Some response ->
       tr_warnings (result response) = [] /\
       tr_belowMinLot (result response) = false).
Proof.
  assert (Hin : forall line,
    In line (warningSet rows) <-> exists row, In row rows /\ rowLine row line).
  { intro line. unfold warningSet.
    destruct (fold_addRowWarnings rows [] line) as [H _]. rewrite H.
    split; [intros [[] | H']; exact H' | auto]. }
  split; [| split; [exact Hin |]].
  - unfold warningSet.
    destruct (fold_addRowWarnings rows [] EmptyString) as [_ H].
    apply H. constructor.
  - split.
    + intros Hempty row Hrow.
      assert (Hnone : forall line, ~ rowLine row line).
      { intros line Hline.
        assert (Hl : In line (warningSet rows)) by (apply Hin; eauto).
        rewrite Hempty in Hl. destruct Hl. }
      split.
      * destruct (truthyText (row_error row)) eqn:Ht; [| reflexivity].
        exfalso. eapply Hnone. left. split; [exact Ht | reflexivity].
      * intros response Hresp. split.
        -- destruct (tr_warnings (result response)) as [| w ws] eqn:Hw;
             [reflexivity |].
           exfalso. eapply (Hnone (warningLine row w)). right.
           exists response. split; [exact Hresp |]. left. exists w.
           rewrite Hw. split; [left; reflexivity | reflexivity].
        -- destruct (tr_belowMinLot (result response)) eqn:Hb; [| reflexivity].
           exfalso. eapply (Hnone minLotNote). right.
           exists response. split; [exact Hresp |]. right. auto.
    + intros Hclean.
      destruct (warningSet rows) as [| line rest] eqn:Hset; [reflexivity |].
      exfalso.
      destruct (proj1 (Hin line) (or_introl eq_refl)) as (row & Hrow & Hline).
      destruct (Hclean row Hrow) as [Herr Hresp].
      destruct Hline as [[Ht _] | (response & Hr & [(w & Hw & _) | [Hb _]])].
      * congruence.
      * destruct (Hresp response Hr) as [Hws _]. rewrite Hws in Hw. destruct Hw.
      * destruct (Hresp response Hr) as [_ Hbf]. congruence.
Qed.

Lemma warnings_panel_witness :
  In "Breakout / ATR * k: ATR/Stop < 4"
    (warningSet (snd (recompute DEFAULT_STATE))).
Proof.
  refine (proj2 (proj1 (proj2 (warnings_panel (snd (recompute DEFAULT_STATE))))
                   "Breakout / ATR * k: ATR/Stop < 4") _).
  exists (computeRow (validateState DEFAULT_STATE) DEFAULT_STATE
            Breakout AtrMultiple).
  split; [right; left; reflexivity |].
  right. eexists. split; [vm_compute; reflexivity |].
  left. exists "ATR/Stop < 4". split; [left; reflexivity |].
  vm_compute. reflexivity.
Defined.

(** ** The row of the summary *)

(** X19.  [renderSummary] shows its placeholder exactly when no row has a
    response.  Otherwise the row it shows is one of the rows and has a
    response, and it is a Breakout / Fixed % row whenever such a row has a
    response. *)
Theorem summary_row_choice (rows : list ResultRow) :
  (summaryRow rows = None <->
   forall row, In row rows -> row_response row = None) /\
  (forall row, summaryRow rows = Some row ->
     In row rows /\ exists response, row_response row = Some response) /\
  (forall row, In row rows -> hasResponse row = true ->
     row_setup row = Breakout -> row_stopType row = FixedPercent ->
     exists chosen,
       summaryRow rows = Some chosen /\ row_setup chosen = Breakout /\
       row_stopType chosen = FixedPercent).
Proof.
  assert (Hresp : forall row, hasResponse row = true ->
            exists response, row_response row = Some response).
  { intros row. unfold hasResponse.
    destruct (row_response row); [eauto | discriminate]. }
  unfold summaryRow.
  set (preferred := fun item =>
    hasResponse item && setup_eqb (row_setup item) Breakout
    && stopType_eqb (row_stopType item) FixedPercent).
  split; [| split].
  - split.
    + destruct (find preferred rows) eqn:Hp; [discriminate |].
      intros Hnone row Hrow.
      pose proof (find_none _ _ Hnone row Hrow) as H.
      unfold hasResponse in H. destruct (row_response row);
        [discriminate | reflexivity].
    + intros Hall.
      destruct (find preferred rows) as [row |] eqn:Hp.
      * apply find_some in Hp. destruct Hp as [Hin Hpref].
        subst preferred. cbn in Hpref.
        apply andb_true_iff in Hpref. destruct Hpref as [Hpref _].
        apply andb_true_iff in Hpref. destruct Hpref as [Hpref _].
        unfold hasResponse in Hpref. rewrite (Hall row Hin) in Hpref.
        discriminate.
      * destruct (find (fun item => hasResponse item) rows) as [row |] eqn:Hf;
          [| reflexivity].
        apply find_some in Hf. destruct Hf as [Hin Hhas].
        unfold hasResponse in Hhas. rewrite (Hall row Hin) in Hhas.
        discriminate.
  - intros row.
    destruct (find preferred rows) as [found |] eqn:Hp.
    + intros [= <-]. apply find_some in Hp. destruct Hp as [Hin Hpref].
      split; [exact Hin |]. apply Hresp.
      subst preferred. cbn in Hpref.
      apply andb_true_iff in Hpref. destruct Hpref as [Hpref _].
      apply andb_true_iff in Hpref. destruct Hpref as [Hpref _]. exact Hpref.
    + intro Hf. apply find_some in Hf. destruct Hf as [Hin Hhas].
      split; [exact Hin | apply Hresp; exact Hhas].
  - intros row Hin Hhas Hsetup Hstop.
    destruct (find preferred rows) as [found |] eqn:Hp.
    + exists found. split; [reflexivity |].
      apply find_some in Hp. destruct Hp as [_ Hpref].
      subst preferred. cbn in Hpref.
      apply andb_true_iff in Hpref. destruct Hpref as [Hpref Hst].
      apply andb_true_iff in Hpref. destruct Hpref as [_ Hsu].
      split.
      * destruct (row_setup found); [reflexivity | discriminate Hsu].
      * destruct (row_stopType found); [reflexivity | discriminate Hst ..].
    + exfalso. pose proof (find_none _ _ Hp row Hin) as Hnot.
      subst preferred. cbn in Hnot. rewrite Hhas, Hsetup, Hstop in Hnot.
      discriminate Hnot.
Qed.

Lemma summary_row_choice_witness :
  exists chosen,
    summaryRow (snd (recompute DEFAULT_STATE)) = Some chosen /\
    row_setup chosen = Breakout /\ row_stopType chosen = FixedPercent.
Proof.
  apply (proj2 (proj2 (summary_row_choice (snd (recompute DEFAULT_STATE))))
           (computeRow (validateState DEFAULT_STATE) DEFAULT_STATE
              Breakout FixedPercent)).
  - left. reflexivity.
  - vm_compute. reflexivity.
  - reflexivity.
  - reflexivity.
Defined.

(** ** Saving a preset *)

(** X20.  After a preset is saved it is the last of the list and the only
    one of its name; the presets of other names are kept, in their order;
    and if the names were distinct before, they still are. *)
Theorem savePreset_replaces (presets : list Preset) (preset : Preset) :
  let saved := savePreset presets preset in
  In preset saved /\
  (forall item, In item saved -> preset_name item = preset_name preset ->
     item = preset) /\
  (exists others,
     saved = (others ++ [preset])%list /\
     others = filter (fun item =>
                negb (String.eqb (preset_name item) (preset_name preset)))
                presets /\
     forall item, preset_name item <> preset_name preset ->
       (In item others <-> In item presets)) /\
  (NoDup (map preset_name presets) -> NoDup (map preset_name saved)).
Proof.
  cbv zeta. unfold savePreset.
  set (keep := fun item : Preset =>
    negb (String.eqb (preset_name item) (preset_name preset))).
  assert (Hkeep : forall item, In item (filter keep presets) ->
            preset_name item <> preset_name preset).
  { intros item Hin. apply filter_In in Hin. destruct Hin as [_ Hk].
    subst keep. cbn in Hk. apply negb_true_iff, String.eqb_neq in Hk. exact Hk. }
  split; [| split; [| split]].
  - apply in_app_iff. right. left. reflexivity.
  - intros item Hin Hname. apply in_app_iff in Hin.
    destruct Hin as [Hin | [<- | []]]; [| reflexivity].
    exfalso. exact (Hkeep item Hin Hname).
  - exists (filter keep presets). split; [reflexivity |].
    split; [reflexivity |].
    intros item Hname. rewrite filter_In. subst keep. cbn.
    rewrite negb_true_iff, String.eqb_neq. tauto.
  - intro Hnodup. rewrite map_app. apply NoDup_app.
    + clear Hkeep. induction presets as [| head rest IH]; [constructor |].
      cbn [filter]. inversion Hnodup as [| ? ? Hhead Hrest]; subst.
      destruct (keep head); [| apply IH; exact Hrest].
      cbn [map]. constructor; [| apply IH; exact Hrest].
      intro Hin. apply Hhead. apply in_map_iff in Hin.
      destruct Hin as (x & Hx & Hin). apply filter_In in Hin.
      apply in_map_iff. exists x. tauto.
    + repeat constructor. intros [].
    + intros name Hin [<- | []]. apply in_map_iff in Hin.
      destruct Hin as (x & Hx & Hin). exact (Hkeep x Hin Hx).
Qed.

Lemma savePreset_replaces_witness :
  NoDup (map preset_name [presetNamed "Futures"; presetNamed "Stocks"]) /\
  NoDup (map preset_name
           (savePreset [presetNamed "Futures"; presetNamed "Stocks"]
              (presetNamed "Futures"))).
Proof.
  assert (Hnames :
    NoDup (map preset_name [presetNamed "Futures"; presetNamed "Stocks"])).
  { cbn. repeat constructor; cbn; intuition discriminate. }
  split; [exact Hnames |].
  exact (proj2 (proj2 (proj2
           (savePreset_replaces [presetNamed "Futures"; presetNamed "Stocks"]
              (presetNamed "Futures")))) Hnames).
Defined.

(** ** A row and the form it comes from *)

Lemma computeRow_response (formErrors : FormErrors) (state : FormState)
  (setup : SetupType) (stopType : StopType) (response : TradeCalcResponse) :
  row_response (computeRow formErrors state setup stopType) = Some response ->
  exists level atr rrMultiple value,
    fs_level state = Some level /\ fs_atr state = Some atr /\
    fs_rrMultiple state = Some rrMultiple /\
    getStopValue state stopType = Some value /\ 0 < value /\
    calculateTrade (rowInput state setup stopType level atr rrMultiple)
    = Ok response.
Proof.
  unfold computeRow. cbv zeta.
  destruct (truthyText (firstFatalError formErrors)); [discriminate |].
  destruct (negb (isPositive (fs_level state)) || negb (isPositive (fs_atr state))
            || negb (isPositive (fs_rrMultiple state))); [discriminate |].
  destruct (isPositive (getStopValue state stopType)) eqn:Hstop;
    cbn [negb]; [| discriminate].
  destruct (negb (isPositive (is_contractMultiplier (fs_instrument state)))
            || negb (isPositive (is_lotStep (fs_instrument state))));
    [discriminate |].
  destruct (truthyText (validateRiskForMode (fs_risk state)));
    [discriminate |].
  destruct (fs_level state) as [level |]; [| discriminate].
  destruct (fs_atr state) as [atr |]; [| discriminate].
  destruct (fs_rrMultiple state) as [rr |]; [| discriminate].
  destruct (calculateTrade (rowInput state setup stopType level atr rr))
    as [resp | message] eqn:Hcall; [| discriminate].
  intros [= <-]. apply isPositive_true in Hstop.
  destruct Hstop as (value & Hvalue & Hpos).
  exists level, atr, rr, value. auto 10.
Qed.

(** X22.  The response of a row belongs to that row and to the form: it
    carries the row's setup and the form's direction and level, its stop is
    the form's stop value put through the formula of the row's stop type,
    and its filter flag follows the checkbox: with the ATR filter on, the
    stop is within the filter exactly when [stop <= 0.2 * atr]; with the
    filter off it always is. *)
Theorem row_response_matches_form (formErrors : FormErrors) (state : FormState)
  (setup : SetupType) (stopType : StopType) (response : TradeCalcResponse) :
  row_response (computeRow formErrors state setup stopType) = Some response ->
  let t := result response in
  exists level atr value,
    fs_level state = Some level /\ fs_atr state = Some atr /\
    getStopValue state stopType = Some value /\
    tr_setup t = setup /\ tr_direction t = fs_direction state /\
    tr_level t = level /\
    tr_stop t
    == match stopType with
       | FixedPercent => (value / 100) * level
       | AtrMultiple => value * atr
       | FixedPoints => value
       end /\
    (fs_enableAtrFilter state = true ->
     (tr_stopWithinAtrFilter t = true <-> tr_stop t <= 0.2 * atr)) /\
    (fs_enableAtrFilter state = false -> tr_stopWithinAtrFilter t = true).
Proof.
  intro Hrow.
  destruct (computeRow_response _ _ _ _ _ Hrow)
    as (level & atr & rr & value & Hlevel & Hatr & _ & Hvalue & _ & Hcall).
  exists level, atr, value.
  split; [exact Hlevel |]. split; [exact Hatr |]. split; [exact Hvalue |].
  returned_call Hcall.
  cbn [result tr_setup tr_direction tr_level tr_stop tr_stopWithinAtrFilter].
  split; [reflexivity |]. split; [reflexivity |]. split; [reflexivity |].
  split; [| split].
  - unfold computeStop, rowInput. cbv zeta.
    destruct stopType; cbn in Hvalue |- *; rewrite Hvalue; reflexivity.
  - intro Hon. cbn [rowInput ti_enableAtrFilter ti_atr]. rewrite Hon.
    cbn [JS.truthy negb orb]. apply leb_true.
  - intro Hoff. cbn [rowInput ti_enableAtrFilter]. rewrite Hoff. reflexivity.
Qed.

Lemma row_response_matches_form_witness :
  exists response,
    row_response (computeRow (validateState DEFAULT_STATE) DEFAULT_STATE
                    FalseBreakout AtrMultiple) = Some response /\
    tr_setup (result response) = FalseBreakout /\
    tr_stop (result response) == 0.5 * 2.
Proof.
  eexists. split; [vm_compute; reflexivity |].
  match goal with
  | |- tr_setup (result ?resp) = _ /\ _ =>
      destruct (row_response_matches_form (validateState DEFAULT_STATE)
                  DEFAULT_STATE FalseBreakout AtrMultiple resp)
        as (level & atr & value & Hl & Ha & Hv & Hsetup & _ & _ & Hstop & _)
  end.
  - vm_compute. reflexivity.
  - split; [exact Hsetup |].
    cbn in Hl, Ha, Hv. injection Ha as <-. injection Hv as <-.
    rewrite Hstop. reflexivity.
Defined.
(** * Properties of the calculation core over binary64 *)

Module Binary64Facts.

Import PrimFloat SpecFloat FloatOps FloatAxioms Binary64.

#[local] Set Warnings "-inexact-float".
Local Open Scope float_scope.
Local Open Scope binary64_scope.

(** ** Classification and order of doubles *)

Lemma SFeqb_refl (x : spec_float) :
  SFeqb x x = match x with S754_nan => false | _ => true end.
Proof.
  destruct x as [s | s | | s m e]; unfold SFeqb; cbn.
  - reflexivity.
  - destruct s; reflexivity.
  - reflexivity.
  - destruct s; rewrite Z.compare_refl, Pos.compare_cont_refl; reflexivity.
Qed.

Lemma is_nan_spec (x : number) :
  is_nan x = match Prim2SF x with S754_nan => true | _ => false end.
Proof.
  unfold is_nan. rewrite eqb_spec, SFeqb_refl.
  destruct (Prim2SF x); reflexivity.
Qed.

Lemma is_infinity_spec (x : number) :
  is_infinity x = match Prim2SF x with S754_infinity _ => true | _ => false end.
Proof.
  unfold is_infinity. rewrite eqb_spec, abs_spec.
  change (Prim2SF infinity) with (S754_infinity false).
  destruct (Prim2SF x) as [s | s | | s m e]; reflexivity.
Qed.

Lemma is_finite_spec (x : number) :
  Number_isFinite x
  = match Prim2SF x with
    | S754_nan | S754_infinity _ => false
    | _ => true
    end.
Proof.
  unfold Number_isFinite, is_finite. rewrite is_nan_spec, is_infinity_spec.
  destruct (Prim2SF x); reflexivity.
Qed.

Lemma leb_zero_spec (x : number) :
  (x <=? 0)
  = match Prim2SF x with
    | S754_zero _ => true
    | S754_infinity s | S754_finite s _ _ => s
    | S754_nan => false
    end.
Proof.
  rewrite leb_spec. change (Prim2SF 0) with (S754_zero false).
  destruct (Prim2SF x) as [s | s | | s m e]; try destruct s; reflexivity.
Qed.

Lemma gtb_zero_spec (x : number) :
  (x >? 0)
  = match Prim2SF x with
    | S754_zero _ | S754_nan => false
    | S754_infinity s | S754_finite s _ _ => negb s
    end.
Proof.
  rewrite ltb_spec. change (Prim2SF 0) with (S754_zero false).
  destruct (Prim2SF x) as [s | s | | s m e]; try destruct s; reflexivity.
Qed.

(** A double that is not [NaN] and not [<= 0] is [> 0]. *)
Lemma positive_of_finite (x : number) :
  Number_isFinite x = true -> (x <=? 0) = false -> (x >? 0) = true.
Proof.
  rewrite is_finite_spec, leb_zero_spec, gtb_zero_spec.
  destruct (Prim2SF x) as [s | s | | s m e]; try destruct s; cbn;
    intros; congruence.
Qed.


(** A finite sum or product has finite operands. *)
Lemma add_finite (x y : number) :
  Number_isFinite (x + y) = true ->
  Number_isFinite x = true /\ Number_isFinite y = true.
Proof.
  rewrite !is_finite_spec, add_spec. unfold SF64add.
  destruct (Prim2SF x) as [s | s | | s m e],
           (Prim2SF y) as [s' | s' | | s' m' e'];
    try (split; reflexivity); cbn;
    try destruct s; try destruct s'; cbn; intros; split; congruence.
Qed.

Lemma mul_finite (x y : number) :
  Number_isFinite (x * y) = true ->
  Number_isFinite x = true /\ Number_isFinite y = true.
Proof.
  rewrite !is_finite_spec, mul_spec. unfold SF64mul.
  destruct (Prim2SF x) as [s | s | | s m e],
           (Prim2SF y) as [s' | s' | | s' m' e'];
    try (split; reflexivity); cbn; intros; split; congruence.
Qed.


(** ** Unfolding a call that returned *)

(** Splits the hypothesis [H : calculateTrade i = Ok r] into the guards the
    call passed, the sizing it obtained and the response it assembled. *)
Ltac returned_call H :=
  unfold calculateTrade in H; cbv zeta in H;
  repeat match type of H with
    | (if ?c then _ else _) = Ok _ =>
        let G := fresh "Hguard" in destruct c eqn:G; [discriminate H |]
    | match ?c with Ok _ => _ | Throw _ => _ end = Ok _ =>
        let sz := fresh "sz" in
        let G := fresh "Hsizing" in
        destruct c as [sz |] eqn:G; [| discriminate H]
    end;
  injection H as <-.

Lemma baseValid_guards (input : TradeInput) :
  baseValid input = true ->
  (ti_level input <=? 0) = false /\ (ti_atr input <=? 0) = false /\
  (ti_rrMultiple input <=? 0) = false /\ (ti_bufferRatio input <? 0) = false /\
  (ip_contractMultiplier (ti_instrument input) <=? 0) = false.
Proof.
  unfold baseValid. rewrite !andb_true_iff, !negb_true_iff. tauto.
Qed.

Lemma calcQuantity_cases (input : TradeInput) (stop : number) :
  ((Number_isFinite (unitCost input stop) = false \/
    (unitCost input stop <=? 0) = true) /\
   calcQuantity input stop
   = Throw "Calculated unit cost must be positive and finite") \/
  (Number_isFinite (unitCost input stop) = true /\
   (unitCost input stop <=? 0) = false /\
   exists sz, calcQuantity input stop = Ok sz /\
     sz_usedRiskCash sz = sz_quantity sz * unitCost input stop).
Proof.
  unfold calcQuantity. cbv zeta.
  destruct (Number_isFinite (unitCost input stop)); cbn [negb orb];
    [| left; auto].
  destruct (unitCost input stop <=? 0); [left; auto | right].
  split; [reflexivity |]. split; [reflexivity |].
  eexists. split; reflexivity.
Qed.

(** ** Derived-state errors *)

(** C5.  On an input that passes base validation, [calculateTrade] throws
    exactly when the computed stop is [<= 0] or the unit cost
    [stop * contractMultiplier + feePerUnit] is not finite or [<= 0]; the
    error is the stop error in the first case and the unit-cost error
    otherwise.  A response that is returned carries the computed stop, which
    is a finite number above zero, and was sized with a finite unit cost
    above zero: neither is [NaN] or an infinity. *)
Theorem derived_state_errors (input : TradeInput) :
  baseValid input = true ->
  let stop := computeStop input in
  let cost := unitCost input stop in
  (throws input <->
   (stop <=? 0) = true \/ Number_isFinite cost = false \/ (cost <=? 0) = true)
  /\
  ((stop <=? 0) = true ->
   calculateTrade input = Throw "Computed stop must be greater than zero") /\
  ((stop <=? 0) = false ->
   Number_isFinite cost = false \/ (cost <=? 0) = true ->
   calculateTrade input
   = Throw "Calculated unit cost must be positive and finite") /\
  (forall r, calculateTrade input = Ok r ->
     tr_stop (result r) = stop /\
     (stop >? 0) = true /\ Number_isFinite stop = true /\
     cost = stop * ip_contractMultiplier (ti_instrument input)
            + (ip_feePerUnit (ti_instrument input) ?? 0) /\
     (cost >? 0) = true /\ Number_isFinite cost = true /\
     meta_usedRiskCash (meta r) = tr_quantity (result r) * cost).
Proof.
  intros Hvalid stop cost.
  destruct (baseValid_guards input Hvalid) as (G1 & G2 & G3 & G4 & G5).
  assert (Hcall :
    ((stop <=? 0) = true /\
     calculateTrade input = Throw "Computed stop must be greater than zero") \/
    ((stop <=? 0) = false /\
     (Number_isFinite cost = false \/ (cost <=? 0) = true) /\
     calculateTrade input
     = Throw "Calculated unit cost must be positive and finite") \/
    ((stop <=? 0) = false /\ Number_isFinite cost = true /\
     (cost <=? 0) = false /\
     exists r, calculateTrade input = Ok r /\ tr_stop (result r) = stop /\
       meta_usedRiskCash (meta r) = tr_quantity (result r) * cost)).
  { unfold calculateTrade. rewrite G1, G2, G3, G4, G5. cbv zeta.
    fold stop. destruct (stop <=? 0) eqn:Gs; [left; auto | right].
    destruct (calcQuantity_cases input stop)
      as [[Hc ->] | (Hf & Hc & sz & -> & Hused)]; [left; auto | right].
    split; [reflexivity |]. split; [exact Hf |]. split; [exact Hc |].
    eexists. split; [reflexivity |]. split; [reflexivity | exact Hused]. }
  split; [| split; [| split]].
  - split.
    + intros [message Hm].
      destruct Hcall as [[Hs _] | [(_ & Hc & _) | (_ & _ & _ & r & Hr & _)]];
        [auto | tauto | congruence].
    + intros Hbad.
      destruct Hcall as [[_ Ht] | [(_ & _ & Ht) | (Hs & Hf & Hc & _)]];
        [eexists; exact Ht | eexists; exact Ht |].
      destruct Hbad as [Hbad | [Hbad | Hbad]]; congruence.
  - intro Hs.
    destruct Hcall as [[_ Ht] | [(Hs' & _) | (Hs' & _)]];
      [exact Ht | congruence | congruence].
  - intros Hs Hbad.
    destruct Hcall as [[Hs' _] | [(_ & _ & Ht) | (_ & Hf & Hc & _)]];
      [congruence | exact Ht |].
    destruct Hbad; congruence.
  - intros r Hr.
    destruct Hcall
      as [[_ Ht] | [(_ & _ & Ht) | (Hs & Hf & Hc & r' & Hr' & Hst & Hused)]];
      [congruence | congruence |].
    assert (r = r') by congruence. subst r'.
    assert (Hshape :
      cost = stop * ip_contractMultiplier (ti_instrument input)
             + (ip_feePerUnit (ti_instrument input) ?? 0)) by reflexivity.
    assert (Hstop : Number_isFinite stop = true).
    { rewrite Hshape in Hf. apply add_finite in Hf. destruct Hf as [Hf _].
      apply mul_finite in Hf. tauto. }
    split; [exact Hst |].
    split; [exact (positive_of_finite stop Hstop Hs) |].
    split; [exact Hstop |]. split; [exact Hshape |].
    split; [exact (positive_of_finite cost Hf Hc) |].
    split; [exact Hf | exact Hused].
Qed.

(** The unit cost of [overflowingCost] is beyond the largest double, and
    the call ends with the unit-cost error. *)
Lemma derived_state_errors_witness :
  Number_isFinite (unitCost overflowingCost (computeStop overflowingCost))
  = false /\
  calculateTrade overflowingCost
  = Throw "Calculated unit cost must be positive and finite".
Proof.
  split; [reflexivity |].
  exact (proj1 (proj2 (proj2
           (derived_state_errors overflowingCost eq_refl)))
           eq_refl (or_introl eq_refl)).
Defined.

(** ** Scenario A *)

(** C1, the claim as stated.  On Scenario A the call returns, and four of
    the listed values are not the doubles it returns: [tpPrice] is not
    [100.96], [pnlAtTp] not [180], [pnlAtSl] not [-72] and
    [currentPriceToTvx] not [-0.56]. *)
Lemma scenarioA_not_exact :
  exists r, calculateTrade scenarioA = Ok r /\
    tr_tpPrice (result r) <> 100.96 /\
    ps_pnlAtTp (tr_positionSummary (result r)) <> 180 /\
    ps_pnlAtSl (tr_positionSummary (result r)) <> -72 /\
    tr_currentPriceToTvx (result r) <> Some (-0.56).
Proof.
  eexists. split; [vm_compute; reflexivity |]. cbn.
  repeat split; intro H;
    [ apply (f_equal (fun x => x =? 100.96)) in H
    | apply (f_equal (fun x => x =? 180)) in H
    | apply (f_equal (fun x => x =? -72)) in H
    | apply (f_equal (fun x =>
               match x with Some v => v =? -0.56 | None => false end)) in H ];
    vm_compute in H; discriminate H.
Qed.

(** C1, as amended.  On Scenario A the call returns exactly this response:
    the listed values for every field but four, and for those four the
    doubles next to the listed values, each within the tolerance of the
    test suite ([toBeCloseTo] with six digits). *)
Theorem scenarioA_doubles :
  calculateTrade scenarioA
  = Ok {| result :=
            {| tr_direction := Long; tr_setup := Breakout; tr_level := 100;
               tr_stop := 0.3; tr_buffer := 0.06; tr_tvx := 100.06;
               tr_slPrice := 99.7; tr_tpPrice := 100.96000000000001;
               tr_rrMultiple := 3; tr_atrOverStop := 20 / 3;
               tr_rangeOverStop := RANGE_UNKNOWN; tr_hasFourStops := true;
               tr_stopWithinAtrFilter := true; tr_warnings := [];
               tr_quantity := 200; tr_notional := 20000;
               tr_belowMinLot := false;
               tr_positionSummary :=
                 {| ps_riskCash := 100; ps_estFees := 40;
                    ps_pnlAtTp := 180.00000000000114;
                    ps_pnlAtSl := -71.99999999999989 |};
               tr_currentPriceToTvx := Some (-0.5600000000000023);
               tr_stopAtrPercent := 15 |};
          meta := {| meta_usedRiskCash := 100; meta_usedNotional := None |} |}
  /\ toBeCloseTo6 100.96000000000001 100.96 = true
  /\ toBeCloseTo6 180.00000000000114 180 = true
  /\ toBeCloseTo6 (-71.99999999999989) (-72) = true
  /\ toBeCloseTo6 (-0.5600000000000023) (-0.56) = true.
Proof. repeat split; vm_compute; reflexivity. Qed.

(** ** Lot alignment *)







(** ** Profit and loss *)




End Binary64Facts.
